(** * Student Information: the record list of [App.tsx]

    A shallow embedding of the state and the handlers of the [App]
    component (src/src/App.tsx): the student array, the form, the edit
    index, the search filter, the pagination window and the two
    [localStorage] effects.

    Conventions of the embedding.
    - A JavaScript [number] that is an age, a mark or a page number is an
      integer ([Z]), as in the data model of the specification. An array
      position is a [nat]: the indices the component computes are never
      negative, since the page number never goes below 1 ([step_stable]).
    - A JavaScript string is a [string] whose characters are the code
      units U+0000 .. U+00FF.
    - A JavaScript array is a list of slots: a slot is empty (a hole),
      holds [undefined] or [null], or holds a record.
    - [localStorage] is a finite map from keys to texts; [JSON.stringify]
      and [JSON.parse] are an executable writer and parser of JSON text
      (module [JSON]). *)

From stdpp Require Import gmap strings list.
From Stdlib Require Import ZArith Lia Ascii.
From Stdlib Require DecimalPos DecimalZ.

#[local] Arguments String.append !s1 s2 : simpl nomatch.

(** ** Data model *)

(** [interface Student] (App.tsx, lines 4-9). *)
Record Student : Type := mkStudent {
  name : string;
  dept : string;
  age : Z;
  marks : Z
}.

(** One position of a JavaScript array of students. [Hole] is an empty
    slot (what an assignment past the end leaves behind), [Undefined] and
    [Null] are present elements that are not records, [Item] is a
    record. *)
Inductive slot : Type :=
| Hole
| Undefined
| Null
| Item (s : Student).

(** The component state: one field per [useState] (lines 12-27). *)
Record State : Type := mkState {
  students : list slot;
  formData : Student;
  editIndex : option nat;
  search : string;
  darkMode : bool;
  currentPage : Z
}.

Definition set_students (st : State) (a : list slot) : State :=
  mkState a (formData st) (editIndex st) (search st) (darkMode st) (currentPage st).

Definition set_formData (st : State) (f : Student) : State :=
  mkState (students st) f (editIndex st) (search st) (darkMode st) (currentPage st).

Definition set_editIndex (st : State) (e : option nat) : State :=
  mkState (students st) (formData st) e (search st) (darkMode st) (currentPage st).

Definition set_search (st : State) (q : string) : State :=
  mkState (students st) (formData st) (editIndex st) q (darkMode st) (currentPage st).

Definition set_darkMode (st : State) (b : bool) : State :=
  mkState (students st) (formData st) (editIndex st) (search st) b (currentPage st).

Definition set_currentPage (st : State) (p : Z) : State :=
  mkState (students st) (formData st) (editIndex st) (search st) (darkMode st) p.

(** What a handler can throw. *)
Inductive error : Type :=
| SyntaxError
| TypeError.

(** The result of a computation that may throw. *)
Inductive outcome (A : Type) : Type :=
| Done (a : A)
| Throw (e : error).
Arguments Done {A} a.
Arguments Throw {A} e.

Definition bind {A B : Type} (m : outcome A) (k : A -> outcome B) : outcome B :=
  match m with
  | Done a => k a
  | Throw e => Throw e
  end.

(** What a handler shows to the user. *)
Inductive notice : Type :=
| Alert (msg : string).

(** A dense array: every slot holds a record. *)
Definition dense (l : list Student) : list slot := map Item l.

(** ** Validation (lines 53-58) *)

(** [!s] on a string: only the empty string is falsy. *)
Definition falsy (s : string) : bool :=
  match s with
  | EmptyString => true
  | String _ _ => false
  end.

Definition isValid (formData : Student) : bool :=
  if falsy (name formData) || falsy (dept formData) then false
  else if (age formData <=? 0)%Z then false
  else if (marks formData <? 0)%Z || (marks formData >? 100)%Z then false
  else true.

(** ** Add / update (lines 61-76) *)

(** The text of the alert, byte for byte as the source file has it; no
    operation of the component reads it. *)
Definition validationMessage : string :=
  "⚠️ Please enter valid details (Age > 0, Marks 0–100).".

Definition emptyForm : Student := mkStudent "" "" 0 0.

(** [[...a]]: the spread reads every position, so an empty slot is
    copied as [undefined]. *)
Definition spread (a : list slot) : list slot :=
  map (fun x => match x with Hole => Undefined | _ => x end) a.

(** [a[i] = v]: inside the array the slot is overwritten; at or past the
    end the array grows to length [i + 1] and the positions in between
    stay empty. *)
Definition array_set (a : list slot) (i : nat) (v : Student) : list slot :=
  if i <? length a then <[i := Item v]> a
  else a ++ replicate (i - length a) Hole ++ [Item v].

(** The handler returns the next state and what it showed to the user.
    ([e.preventDefault()] only keeps the browser from sending the
    form.) *)
Definition handleSubmit (st : State) : State * list notice :=
  if negb (isValid (formData st)) then (st, [Alert validationMessage])
  else
    match editIndex st with
    | Some i =>
        let updated := array_set (spread (students st)) i (formData st) in
        (set_formData (set_editIndex (set_students st updated) None) emptyForm, [])
    | None =>
        (set_formData (set_students st (spread (students st) ++ [Item (formData st)]))
           emptyForm, [])
    end.

(** ** Delete (lines 79-83) *)

(** [a.filter((_, i) => i !== index)], the positions counted from [i]:
    [filter] skips empty slots and keeps the present elements whose
    position is not [index]. *)
Fixpoint filter_other (index i : nat) (a : list slot) : list slot :=
  match a with
  | [] => []
  | Hole :: r => filter_other index (S i) r
  | x :: r =>
      if i =? index then filter_other index (S i) r
      else x :: filter_other index (S i) r
  end.

(** [confirmed] is the answer of [window.confirm]. *)
Definition handleDelete (confirmed : bool) (index : nat) (st : State) : outcome State :=
  if confirmed then Done (set_students st (filter_other index 0 (students st)))
  else Done st.

(** ** Edit (lines 86-89) *)

(** [students[index]] is a record only at an [Item]; otherwise the form
    data becomes [undefined] or [null] and the render that follows the
    state update throws on [formData.name]. *)
Definition handleEdit (index : nat) (st : State) : outcome State :=
  match students st !! index with
  | Some (Item s) => Done (set_editIndex (set_formData st s) (Some index))
  | _ => Throw TypeError
  end.

(** ** String built-ins *)

(** [String.prototype.toLowerCase] on the code units U+0000 .. U+00FF:
    A-Z and the capital letters U+00C0 .. U+00DE (the sign U+00D7 apart)
    move up by 32; every other code unit is its own lower case. *)
Definition lower_code (n : N) : N :=
  if ((65 <=? n) && (n <=? 90) || (192 <=? n) && (n <=? 222) && negb (n =? 215))%N
  then (n + 32)%N else n.

Definition toLowerCase_char (c : ascii) : ascii :=
  ascii_of_N (lower_code (N_of_ascii c)).

Fixpoint toLowerCase (s : string) : string :=
  match s with
  | EmptyString => EmptyString
  | String c r => String (toLowerCase_char c) (toLowerCase r)
  end.

(** [s.startsWith(q)]. *)
Fixpoint startsWith (s q : string) : bool :=
  match q, s with
  | EmptyString, _ => true
  | String _ _, EmptyString => false
  | String b q', String a s' => Ascii.eqb a b && startsWith s' q'
  end.

(** [s.includes(q)]: [q] starts at some position of [s]. *)
Fixpoint includes (s q : string) : bool :=
  startsWith s q ||
  match s with
  | EmptyString => false
  | String _ r => includes r q
  end.

(** ** Search filter (lines 92-96) *)

(** The callback of the filter, on a record. *)
Definition matches (search : string) (s : Student) : bool :=
  includes (toLowerCase (name s)) (toLowerCase search)
  || includes (toLowerCase (dept s)) (toLowerCase search).

(** [a.filter(s => ...)] with that callback: empty slots are skipped, the
    callback throws on [undefined] and [null] (reading [s.name]), and the
    records it accepts are kept in order. *)
Fixpoint filter_search (search : string) (a : list slot) : outcome (list Student) :=
  match a with
  | [] => Done []
  | Hole :: r => filter_search search r
  | Undefined :: _ => Throw TypeError
  | Null :: _ => Throw TypeError
  | Item s :: r =>
      bind (filter_search search r)
        (fun t => Done (if matches search s then s :: t else t))
  end.

Definition filteredStudents (st : State) : outcome (list Student) :=
  filter_search (search st) (students st).

(** ** Pagination (lines 99-102) *)

Definition studentsPerPage : Z := 5.

(** [Array.prototype.slice(start, end)]: a negative bound counts from the
    end, both bounds are clamped to the array. *)
Definition slice {A : Type} (l : list A) (start finish : Z) : list A :=
  let len := Z.of_nat (length l) in
  let k := if (start <? 0)%Z then Z.max (len + start) 0 else Z.min start len in
  let final := if (finish <? 0)%Z then Z.max (len + finish) 0 else Z.min finish len in
  take (Z.to_nat (final - k)) (drop (Z.to_nat k) l).

(** [Math.ceil(n / d)] on integers, [d] not zero. *)
Definition Math_ceil_div (n d : Z) : Z := (- ((- n) / d))%Z.

Definition indexOfLast (page perPage : Z) : Z := (page * perPage)%Z.

Definition indexOfFirst (page perPage : Z) : Z := (indexOfLast page perPage - perPage)%Z.

(** The window and the page count for a page size [perPage]; the
    component uses [studentsPerPage]. *)
Definition paginate (perPage : Z) (filtered : list Student) (page : Z)
  : list Student * Z :=
  (slice filtered (indexOfFirst page perPage) (indexOfLast page perPage),
   Math_ceil_div (Z.of_nat (length filtered)) perPage).

Definition currentStudents (st : State) : outcome (list Student) :=
  bind (filteredStudents st)
    (fun f => Done (fst (paginate studentsPerPage f (currentPage st)))).

Definition totalPages (st : State) : outcome Z :=
  bind (filteredStudents st)
    (fun f => Done (snd (paginate studentsPerPage f (currentPage st)))).

(** The index the Edit and Delete buttons of row [row] pass to their
    handler (lines 185 and 191): [indexOfFirst + index], an array
    position from page 1 on. *)
Definition rowIndex (st : State) (row : nat) : nat :=
  Z.to_nat (indexOfFirst (currentPage st) studentsPerPage + Z.of_nat row).

Definition clickEdit (row : nat) (st : State) : outcome State :=
  handleEdit (rowIndex st row) st.

Definition clickDelete (confirmed : bool) (row : nat) (st : State) : outcome State :=
  handleDelete confirmed (rowIndex st row) st.

(** ** JSON text: [JSON.stringify] and [JSON.parse] *)

Module JSON.

(** The quotation mark (U+0022) and the backslash (U+005C). *)
Definition dquote : ascii := ascii_of_N 34.
Definition backslash : ascii := ascii_of_N 92.

(** A parsed JSON value. A string whose escapes name a code unit above
    U+00FF is [None] (not a string of this model); a number written with
    a fraction or an exponent is [JFrac] (its value is not represented). *)
Unset Elimination Schemes.
Inductive json : Type :=
| JNull
| JBool (b : bool)
| JNum (z : Z)
| JFrac
| JStr (s : option string)
| JArr (l : list json)
| JObj (m : list (option string * json)).
Set Elimination Schemes.

(** *** Writing *)

Definition hex_digit (n : N) : ascii :=
  if (n <? 10)%N then ascii_of_N (48 + n) else ascii_of_N (87 + n).

(** [QuoteJSONString], one code unit: the quotation mark and the
    backslash are escaped, the control characters are written as the
    short escapes or as [\u00xx], everything else is written as it is. *)
Definition quote_char (c : ascii) : string :=
  let n := N_of_ascii c in
  if (n =? 34)%N then String backslash (String dquote EmptyString)
  else if (n =? 92)%N then String backslash (String backslash EmptyString)
  else if (n =? 8)%N then String backslash "b"
  else if (n =? 9)%N then String backslash "t"
  else if (n =? 10)%N then String backslash "n"
  else if (n =? 12)%N then String backslash "f"
  else if (n =? 13)%N then String backslash "r"
  else if (n <? 32)%N then
    String backslash
      (String "u" (String "0" (String "0"
         (String (hex_digit (n / 16)) (String (hex_digit (n mod 16)) EmptyString)))))
  else String c EmptyString.

Fixpoint quote_body (s : string) : string :=
  match s with
  | EmptyString => EmptyString
  | String c r => quote_char c +:+ quote_body r
  end.

Definition QuoteJSONString (s : string) : string :=
  String dquote (quote_body s +:+ String dquote EmptyString).

Fixpoint digits (d : Decimal.uint) : string :=
  match d with
  | Decimal.Nil => EmptyString
  | Decimal.D0 r => String "0" (digits r)
  | Decimal.D1 r => String "1" (digits r)
  | Decimal.D2 r => String "2" (digits r)
  | Decimal.D3 r => String "3" (digits r)
  | Decimal.D4 r => String "4" (digits r)
  | Decimal.D5 r => String "5" (digits r)
  | Decimal.D6 r => String "6" (digits r)
  | Decimal.D7 r => String "7" (digits r)
  | Decimal.D8 r => String "8" (digits r)
  | Decimal.D9 r => String "9" (digits r)
  end.

(** [Number.prototype.toString] on an integer: decimal digits, a minus
    sign before a negative number. *)
Definition Number_toString (z : Z) : string :=
  match Z.to_int z with
  | Decimal.Pos d => digits d
  | Decimal.Neg d => String "-" (digits d)
  end.

(** A record is written with its properties in the order the component
    creates them: name, dept, age, marks. *)
Definition stringify_student (s : Student) : string :=
  "{" +:+ QuoteJSONString "name" +:+ ":" +:+ QuoteJSONString (name s) +:+ ","
  +:+ QuoteJSONString "dept" +:+ ":" +:+ QuoteJSONString (dept s) +:+ ","
  +:+ QuoteJSONString "age" +:+ ":" +:+ Number_toString (age s) +:+ ","
  +:+ QuoteJSONString "marks" +:+ ":" +:+ Number_toString (marks s) +:+ "}".

(** An empty slot, [undefined] and [null] are all written [null]. *)
Definition stringify_slot (x : slot) : string :=
  match x with
  | Item s => stringify_student s
  | _ => "null"
  end.

Fixpoint stringify_elements (a : list slot) : string :=
  match a with
  | [] => EmptyString
  | [x] => stringify_slot x
  | x :: r => stringify_slot x +:+ "," +:+ stringify_elements r
  end.

(** [JSON.stringify(students)]. *)
Definition stringify (a : list slot) : string :=
  "[" +:+ stringify_elements a +:+ "]".

(** *** Reading *)

(** JSON white space: space, tab, line feed, carriage return. *)
Definition is_ws (c : ascii) : bool :=
  let n := N_of_ascii c in
  ((n =? 32) || (n =? 9) || (n =? 10) || (n =? 13))%N.

Fixpoint skip_ws (s : string) : string :=
  match s with
  | EmptyString => EmptyString
  | String c r => if is_ws c then skip_ws r else s
  end.

Definition hexval (c : ascii) : option N :=
  let n := N_of_ascii c in
  if ((48 <=? n) && (n <=? 57))%N then Some (n - 48)%N
  else if ((97 <=? n) && (n <=? 102))%N then Some (n - 87)%N
  else if ((65 <=? n) && (n <=? 70))%N then Some (n - 55)%N
  else None.

Definition hex4 (a b c d : ascii) : option N :=
  match hexval a, hexval b, hexval c, hexval d with
  | Some x, Some y, Some z, Some w => Some (((x * 16 + y) * 16 + z) * 16 + w)%N
  | _, _, _, _ => None
  end.

(** The character a two-character escape stands for. *)
Definition unescape (e : ascii) : option ascii :=
  if Ascii.eqb e dquote then Some dquote
  else if Ascii.eqb e backslash then Some backslash
  else if Ascii.eqb e "/" then Some "/"%char
  else if Ascii.eqb e "b" then Some (ascii_of_N 8)
  else if Ascii.eqb e "f" then Some (ascii_of_N 12)
  else if Ascii.eqb e "n" then Some (ascii_of_N 10)
  else if Ascii.eqb e "r" then Some (ascii_of_N 13)
  else if Ascii.eqb e "t" then Some (ascii_of_N 9)
  else None.

Definition push (c : option ascii) (t : option string) : option string :=
  match c, t with
  | Some c, Some s => Some (String c s)
  | _, _ => None
  end.

(** The characters of a string literal after its opening quotation mark,
    up to the closing one. *)
Fixpoint parse_chars (s : string) : option (option string * string) :=
  match s with
  | EmptyString => None
  | String c r =>
      if Ascii.eqb c dquote then Some (Some EmptyString, r)
      else if Ascii.eqb c backslash then
        match r with
        | EmptyString => None
        | String e r1 =>
            match unescape e with
            | Some c' =>
                match parse_chars r1 with
                | Some (t, rest) => Some (push (Some c') t, rest)
                | None => None
                end
            | None =>
                if Ascii.eqb e "u" then
                  match r1 with
                  | String h1 (String h2 (String h3 (String h4 r2))) =>
                      match hex4 h1 h2 h3 h4 with
                      | Some n =>
                          match parse_chars r2 with
                          | Some (t, rest) =>
                              Some (push (if (n <? 256)%N then Some (ascii_of_N n) else None) t,
                                    rest)
                          | None => None
                          end
                      | None => None
                      end
                  | _ => None
                  end
                else None
            end
        end
      else if (N_of_ascii c <? 32)%N then None
      else
        match parse_chars r with
        | Some (t, rest) => Some (push (Some c) t, rest)
        | None => None
        end
  end.

Definition digit_of (c : ascii) : option (Decimal.uint -> Decimal.uint) :=
  if Ascii.eqb c "0" then Some Decimal.D0
  else if Ascii.eqb c "1" then Some Decimal.D1
  else if Ascii.eqb c "2" then Some Decimal.D2
  else if Ascii.eqb c "3" then Some Decimal.D3
  else if Ascii.eqb c "4" then Some Decimal.D4
  else if Ascii.eqb c "5" then Some Decimal.D5
  else if Ascii.eqb c "6" then Some Decimal.D6
  else if Ascii.eqb c "7" then Some Decimal.D7
  else if Ascii.eqb c "8" then Some Decimal.D8
  else if Ascii.eqb c "9" then Some Decimal.D9
  else None.

(** The longest run of decimal digits at the head of the text. *)
Fixpoint read_digits (s : string) : Decimal.uint * string :=
  match s with
  | EmptyString => (Decimal.Nil, EmptyString)
  | String c r =>
      match digit_of c with
      | Some d => let (t, rest) := read_digits r in (d t, rest)
      | None => (Decimal.Nil, s)
      end
  end.

(** The text after the character [k], when it starts with [k]. *)
Definition strip (k : ascii) (s : string) : option string :=
  match s with
  | String c r => if Ascii.eqb c k then Some r else None
  | EmptyString => None
  end.

(** The text after the word [w], when it starts with [w]. *)
Fixpoint strip_word (w s : string) : option string :=
  match w with
  | EmptyString => Some s
  | String k w' =>
      match strip k s with
      | Some r => strip_word w' r
      | None => None
      end
  end.

(** At least one digit. *)
Definition some_digits (s : string) : option (bool * string) :=
  match read_digits s with
  | (Decimal.Nil, _) => None
  | (_, rest) => Some (true, rest)
  end.

(** An optional fraction: a point and at least one digit. *)
Definition parse_frac (s : string) : option (bool * string) :=
  match strip "." s with
  | Some r => some_digits r
  | None => Some (false, s)
  end.

(** The exponent after its letter: an optional sign and at least one
    digit. *)
Definition parse_exp_body (r : string) : option (bool * string) :=
  match strip "+" r with
  | Some r1 => some_digits r1
  | None =>
      match strip "-" r with
      | Some r1 => some_digits r1
      | None => some_digits r
      end
  end.

(** An optional exponent, introduced by [e] or [E]. *)
Definition parse_exp (s : string) : option (bool * string) :=
  match strip "e" s with
  | Some r => parse_exp_body r
  | None =>
      match strip "E" s with
      | Some r => parse_exp_body r
      | None => Some (false, s)
      end
  end.

(** The integer part, the fraction and the exponent of a number; [neg]
    says whether a minus sign came before. The integer part has no
    leading zero (a single 0 apart). *)
Definition parse_unsigned (neg : bool) (s1 : string) : option (json * string) :=
  let (d, s2) := read_digits s1 in
  if Decimal.uint_beq (Decimal.unorm d) d then
    match parse_frac s2 with
    | Some (frac, s3) =>
        match parse_exp s3 with
        | Some (exp, s4) =>
            Some (if frac || exp then JFrac
                  else JNum (Z.of_int (if neg then Decimal.Neg d else Decimal.Pos d)),
                  s4)
        | None => None
        end
    | None => None
    end
  else None.

(** A number: an optional minus sign, then the unsigned number. *)
Definition parse_number (s : string) : option (json * string) :=
  match strip "-" s with
  | Some r => parse_unsigned true r
  | None => parse_unsigned false s
  end.

(** [word] at the head of the text. *)
Definition literal (word : string) (v : json) (s : string) : option (json * string) :=
  match strip_word word s with
  | Some rest => Some (v, rest)
  | None => None
  end.

(** The scalar values: a string, one of the three words, a number. *)
Definition parse_scalar (t : string) : option (json * string) :=
  match strip dquote t with
  | Some r =>
      match parse_chars r with
      | Some (x, rest) => Some (JStr x, rest)
      | None => None
      end
  | None =>
      match literal "null" JNull t with
      | Some x => Some x
      | None =>
          match literal "true" (JBool true) t with
          | Some x => Some x
          | None =>
              match literal "false" (JBool false) t with
              | Some x => Some x
              | None => parse_number t
              end
          end
      end
  end.

(** A value, the elements of an array after its bracket, the members of
    an object after its brace. [fuel] bounds the depth of the calls; a
    text never needs more than its length ([parse_value_fuel]). *)
Fixpoint parse_value (fuel : nat) (s : string) : option (json * string) :=
  match fuel with
  | O => None
  | S f =>
      match strip "[" (skip_ws s) with
      | Some r =>
          match strip "]" (skip_ws r) with
          | Some r' => Some (JArr [], r')
          | None =>
              match parse_elements f r with
              | Some (l, rest) => Some (JArr l, rest)
              | None => None
              end
          end
      | None =>
          match strip "{" (skip_ws s) with
          | Some r =>
              match strip "}" (skip_ws r) with
              | Some r' => Some (JObj [], r')
              | None =>
                  match parse_members f r with
                  | Some (m, rest) => Some (JObj m, rest)
                  | None => None
                  end
              end
          | None => parse_scalar (skip_ws s)
          end
      end
  end
with parse_elements (fuel : nat) (s : string) : option (list json * string) :=
  match fuel with
  | O => None
  | S f =>
      match parse_value f s with
      | Some (v, rest) =>
          match strip "," (skip_ws rest) with
          | Some r =>
              match parse_elements f r with
              | Some (l, rest') => Some (v :: l, rest')
              | None => None
              end
          | None =>
              match strip "]" (skip_ws rest) with
              | Some r => Some ([v], r)
              | None => None
              end
          end
      | None => None
      end
  end
with parse_members (fuel : nat) (s : string)
  : option (list (option string * json) * string) :=
  match fuel with
  | O => None
  | S f =>
      match strip dquote (skip_ws s) with
      | Some r =>
          match parse_chars r with
          | Some (k, r1) =>
              match strip ":" (skip_ws r1) with
              | Some r2 =>
                  match parse_value f r2 with
                  | Some (v, r3) =>
                      match strip "," (skip_ws r3) with
                      | Some r4 =>
                          match parse_members f r4 with
                          | Some (m, rest) => Some ((k, v) :: m, rest)
                          | None => None
                          end
                      | None =>
                          match strip "}" (skip_ws r3) with
                          | Some r4 => Some ([(k, v)], r4)
                          | None => None
                          end
                      end
                  | None => None
                  end
              | None => None
              end
          | None => None
          end
      | None => None
      end
  end.

(** [JSON.parse(text)]: one value, white space around it, nothing else.
    [None] is the [SyntaxError]. *)
Definition parse (text : string) : option json :=
  match parse_value (S (String.length text)) text with
  | Some (v, rest) =>
      match skip_ws rest with
      | EmptyString => Some v
      | String _ _ => None
      end
  | None => None
  end.

End JSON.

Import JSON.

(** [String(b)] on a boolean. *)
Definition String_of_bool (b : bool) : string :=
  if b then "true" else "false".

(** ** The backing store: [localStorage] *)

(** [localStorage] maps keys to texts; [getItem] of an absent key is
    [null], here [None]. *)
Definition getItem (key : string) (ls : gmap string string) : option string :=
  ls !! key.

Definition setItem (key value : string) (ls : gmap string string) : gmap string string :=
  <[key := value]> ls.

(** The parsed value as the [Student[]] the state is typed with: an
    element is [null] or an object with the four properties of a record,
    in the order [JSON.stringify] writes them. *)
Definition slot_of_json (j : json) : option slot :=
  match j with
  | JNull => Some Null
  | JObj [(Some k1, JStr (Some n)); (Some k2, JStr (Some d));
          (Some k3, JNum a); (Some k4, JNum m)] =>
      if String.eqb k1 "name" && String.eqb k2 "dept"
         && String.eqb k3 "age" && String.eqb k4 "marks"
      then Some (Item (mkStudent n d a m))
      else None
  | _ => None
  end.

Fixpoint slots_of_json (l : list json) : option (list slot) :=
  match l with
  | [] => Some []
  | j :: r =>
      match slot_of_json j, slots_of_json r with
      | Some x, Some t => Some (x :: t)
      | _, _ => None
      end
  end.

Definition students_of_json (j : json) : option (list slot) :=
  match j with
  | JArr l => slots_of_json l
  | _ => None
  end.

(** What the load effect does to the state. *)
Inductive load_result : Type :=
| Loaded (st : State)
| LoadThrows (e : error)
| LoadForeign.

(** The load effect (lines 30-35): an absent key and the empty text are
    falsy and leave the list alone; any other text goes through
    [JSON.parse], unguarded, and the value is stored unchecked.
    [LoadForeign]: the text parsed to a value that is not an array of
    students, which the source stores all the same and [State] cannot
    hold. *)
Definition loadStudents (ls : gmap string string) (st : State) : load_result :=
  match getItem "students" ls with
  | None => Loaded st
  | Some stored =>
      if falsy stored then Loaded st
      else
        match JSON.parse stored with
        | None => LoadThrows SyntaxError
        | Some v =>
            match students_of_json v with
            | Some a => Loaded (set_students st a)
            | None => LoadForeign
            end
        end
  end.

(** The [useState] initialisers (lines 12-27); [darkMode] is
    [localStorage.getItem("darkMode") === "true"]. *)
Definition initialState (ls : gmap string string) : State :=
  mkState [] emptyForm None ""
    (match getItem "darkMode" ls with
     | Some v => String.eqb v "true"
     | None => false
     end)
    1.

(** Start-up: the initial state, then the load effect. *)
Definition load (ls : gmap string string) : load_result :=
  loadStudents ls (initialState ls).

(** The save effect (lines 38-41). *)
Definition save (st : State) (ls : gmap string string) : gmap string string :=
  setItem "darkMode" (String_of_bool (darkMode st))
    (setItem "students" (JSON.stringify (students st)) ls).

(** ** The remaining handlers *)

(** A change of one form input; a numeric input carries [Number(value)]
    (lines 44-50). *)
Inductive change : Type :=
| ChangeName (v : string)
| ChangeDept (v : string)
| ChangeAge (n : Z)
| ChangeMarks (n : Z).

Definition handleChange (e : change) (st : State) : State :=
  let f := formData st in
  set_formData st
    match e with
    | ChangeName v => mkStudent v (dept f) (age f) (marks f)
    | ChangeDept v => mkStudent (name f) v (age f) (marks f)
    | ChangeAge n => mkStudent (name f) (dept f) n (marks f)
    | ChangeMarks n => mkStudent (name f) (dept f) (age f) n
    end.

(** The search box (line 121) and the dark-mode toggle (line 111). *)
Definition handleSearch (q : string) (st : State) : State := set_search st q.

Definition toggleDarkMode (st : State) : State :=
  set_darkMode st (negb (darkMode st)).

(** The updates of the Prev and Next buttons (lines 212 and 221). *)
Definition prevPage (st : State) : State :=
  set_currentPage st (currentPage st - 1).

Definition nextPage (st : State) : State :=
  set_currentPage st (currentPage st + 1).

(** ** Predicates of the specification *)

(** The constraints of the data model on one record. *)
Definition meets_constraints (s : Student) : Prop :=
  name s <> "" /\ dept s <> "" /\ (age s > 0)%Z /\ (0 <= marks s <= 100)%Z.

(** Every record present in the array meets the constraints. *)
Definition valid_slot (x : slot) : Prop :=
  match x with
  | Item s => meets_constraints s
  | _ => True
  end.

Definition valid_list (a : list slot) : Prop := Forall valid_slot a.






(** ** Auxiliary definitions for the JSON text *)

(** The value [JSON.parse] reads a written record as. *)
Definition json_of_student (s : Student) : json :=
  JObj [(Some "name", JStr (Some (name s))); (Some "dept", JStr (Some (dept s)));
        (Some "age", JNum (age s)); (Some "marks", JNum (marks s))].

(** The value [JSON.parse] reads a written slot as. *)
Definition json_of_slot (x : slot) : json :=
  match x with
  | Item s => json_of_student s
  | _ => JNull
  end.

(** A slot after a save and a load: what is not a record comes back as
    [null]. *)
Definition reloaded (x : slot) : slot :=
  match x with
  | Item s => Item s
  | _ => Null
  end.

Definition is_record (x : slot) : bool :=
  match x with
  | Item _ => true
  | _ => false
  end.

(** A parser that succeeds with the fuel [f] consumes at least one
    character, and succeeds with any fuel that is at least the number of
    characters it consumes. *)
Definition fuel_enough {A : Type} (p : nat -> string -> option (A * string))
    (f : nat) : Prop :=
  forall s x rest,
    p f s = Some (x, rest) ->
    String.length rest < String.length s
    /\ forall g, String.length s - String.length rest <= g -> p g s = Some (x, rest).

(** What follows a number in the text of a record. *)
Definition closes_number (c : ascii) : Prop := c = ","%char \/ c = "}"%char.

(** What the text of a written slot starts with. *)
Definition opens_element (c : ascii) : Prop := c = "{"%char \/ c = "n"%char.

(** The characters a number can start with. *)
Definition number_head (c : ascii) : bool :=
  match digit_of c with
  | Some _ => true
  | None => Ascii.eqb c "-"
  end.

(** ** Records of the scenarios *)

Definition alice : Student := mkStudent "Alice" "CS" 20 88.
Definition bob : Student := mkStudent "Bob" "EE" 21 50.
Definition bob_age0 : Student := mkStudent "Bob" "EE" 0 50.
Definition carol : Student := mkStudent "Carol" "ME" 22 75.

(** ** Stores of the scenarios *)

(** A store whose text for the list does not parse. *)
Definition store_unparseable : gmap string string := {[ "students" := "{" ]}.

(** A store with the dark mode on and no list. *)
Definition store_dark_only : gmap string string := {[ "darkMode" := "true" ]}.

(** A store whose list holds the record of the empty form, which
    [isValid] rejects. *)
Definition store_invalid_record : gmap string string :=
  {[ "students" := JSON.stringify (dense [emptyForm]) ]}.

(** A state that holds the list [l], the form [f] and the edit index
    [e], with nothing searched, on page 1. *)
Definition editing (l : list Student) (f : Student) (e : option nat) : State :=
  mkState (dense l) f e "" false 1.

(** ** The rendered view (lines 104-229) *)

(** The pagination bar: the two buttons and the text between them. *)
Record Pagination : Type := mkPagination {
  prevDisabled : bool;
  pageShown : Z;
  pagesShown : Z;
  nextDisabled : bool
}.

(** What a render shows of the state: the rows of the table (with no
    row the table shows the line No students found), the label of the
    submit button, the pagination bar when there is more than one page,
    and whether the dark class is set. *)
Record View : Type := mkView {
  rows : list Student;
  submitLabel : string;
  pagination : option Pagination;
  dark : bool
}.

Definition render (st : State) : outcome View :=
  bind (filteredStudents st)
    (fun f =>
       let w := fst (paginate studentsPerPage f (currentPage st)) in
       let t := snd (paginate studentsPerPage f (currentPage st)) in
       Done (mkView w
               (match editIndex st with Some _ => "Update" | None => "Add" end)
               (if (1 <? t)%Z
                then Some (mkPagination (currentPage st =? 1)%Z (currentPage st) t
                             (currentPage st =? t)%Z)
                else None)
               (darkMode st))).

(** ** Further notions *)

(** A run of changes of the form inputs, in order. *)
Definition handleChanges (es : list change) (st : State) : State :=
  foldl (fun s e => handleChange e s) st es.

(** A present element that is not a record. *)
Definition nullish (x : slot) : bool :=
  match x with
  | Undefined | Null => true
  | _ => false
  end.

Definition is_hole (x : slot) : bool :=
  match x with
  | Hole => true
  | _ => false
  end.

(** The records of an array, in order. *)
Fixpoint records (a : list slot) : list Student :=
  match a with
  | [] => []
  | Item s :: r => s :: records r
  | _ :: r => records r
  end.

(** The array without its empty slots. *)
Definition compact (a : list slot) : list slot :=
  List.filter (fun x => negb (is_hole x)) a.

(** ** The component as a transition system *)

(** What is on the screen: the component with its state, or nothing once
    a render has thrown (the application sets up no error boundary, so
    React removes the component, and no handler can be called any
    more). *)
Inductive screen : Type :=
| Mounted (st : State)
| Unmounted.

(** The render that follows a state update. When it throws, the
    component is removed and no effect of that render runs: the store is
    left as it is. Otherwise the save effect (lines 38-41) runs when the
    update set the list or the dark mode, which [saves] tells. *)
Definition commit (saves : bool) (st : State) (ls : gmap string string)
  : screen * gmap string string :=
  match render st with
  | Done _ => (Mounted st, if saves then save st ls else ls)
  | Throw _ => (Unmounted, ls)
  end.

(** A start-up, or a reload of the page. The first render shows the
    initial state, whose list is empty. Its effects run in the order of
    the source: the load effect reads the store and, when the key holds a
    text, sets the list it parses; the save effect then writes the list
    and the dark mode of that first render, the empty list. When the list
    was set, its render follows, and with it, if the render succeeds, the
    save of that list. Each effect runs once per render, as React runs
    it outside the double invocation of its development-only strict
    mode. A start-up whose load effect throws, or parses something that
    is no array of records, is not described ([None]). *)
Definition mount (ls : gmap string string) : option (screen * gmap string string) :=
  let first := initialState ls in
  match getItem "students" ls with
  | None => Some (Mounted first, save first ls)
  | Some stored =>
      if falsy stored then Some (Mounted first, save first ls)
      else
        match loadStudents ls first with
        | Loaded st => Some (commit true st (save first ls))
        | _ => None
        end
  end.

(** One user event, or a reload of the page. The events are those of the
    component on the screen, whose render has succeeded: a row button
    exists for each row of the table, the pagination bar when there is
    more than one page, and a disabled button of the bar sends no event.
    A rejected submit and a delete that is not confirmed set no state. An
    Edit whose index holds no record sets the form data to [undefined],
    on which the render that follows throws. *)
Inductive step : screen * gmap string string -> screen * gmap string string -> Prop :=
| step_change (e : change) st ls v :
    render st = Done v ->
    step (Mounted st, ls) (commit false (handleChange e st) ls)
| step_search (q : string) st ls v :
    render st = Done v ->
    step (Mounted st, ls) (commit false (handleSearch q st) ls)
| step_dark st ls v :
    render st = Done v ->
    step (Mounted st, ls) (commit true (toggleDarkMode st) ls)
| step_submit st ls v :
    render st = Done v ->
    isValid (formData st) = true ->
    step (Mounted st, ls) (commit true (fst (handleSubmit st)) ls)
| step_submit_invalid st ls v :
    render st = Done v ->
    isValid (formData st) = false ->
    step (Mounted st, ls) (Mounted (fst (handleSubmit st)), ls)
| step_edit (row : nat) st st' ls v :
    render st = Done v -> row < length (rows v) ->
    clickEdit row st = Done st' ->
    step (Mounted st, ls) (commit false st' ls)
| step_edit_throws (row : nat) st ls v err :
    render st = Done v -> row < length (rows v) ->
    clickEdit row st = Throw err ->
    step (Mounted st, ls) (Unmounted, ls)
| step_delete (row : nat) st st' ls v :
    render st = Done v -> row < length (rows v) ->
    clickDelete true row st = Done st' ->
    step (Mounted st, ls) (commit true st' ls)
| step_delete_cancel (row : nat) st st' ls v :
    render st = Done v -> row < length (rows v) ->
    clickDelete false row st = Done st' ->
    step (Mounted st, ls) (Mounted st', ls)
| step_prev st ls v b :
    render st = Done v -> pagination v = Some b -> prevDisabled b = false ->
    step (Mounted st, ls) (commit false (prevPage st) ls)
| step_next st ls v b :
    render st = Done v -> pagination v = Some b -> nextDisabled b = false ->
    step (Mounted st, ls) (commit false (nextPage st) ls)
| step_reload scr ls c :
    mount ls = Some c ->
    step (scr, ls) c.

(** The store holds the list [a] and the dark mode [d] as the save
    effect writes them. *)
Definition stored (a : list slot) (d : bool) (ls : gmap string string) : Prop :=
  getItem "students" ls = Some (JSON.stringify a)
  /\ getItem "darkMode" ls = Some (String_of_bool d).

(** What holds of the screen and the store between events. With the
    component on the screen: its render succeeds, the page number is at
    least 1, every record of the list meets the constraints, and the
    store holds the list and the dark mode of the state. With the
    component removed: the store holds some list whose records meet the
    constraints. *)
Definition stable (c : screen * gmap string string) : Prop :=
  match fst c with
  | Mounted st =>
      (exists v, render st = Done v)
      /\ (1 <= currentPage st)%Z
      /\ valid_list (students st)
      /\ stored (students st) (darkMode st) (snd c)
  | Unmounted => exists a d, valid_list a /\ stored a d (snd c)
  end.

(** * Properties *)

(** ** Validation *)

Lemma falsy_true (s : string) : falsy s = true <-> s = "".
Proof. destruct s; simpl; split; congruence. Qed.

Lemma falsy_false (s : string) : falsy s = false <-> s <> "".
Proof. destruct s; simpl; split; congruence. Qed.

(** C2: [isValid] is a function of the record alone; it is false exactly
    on the records with an empty name, an empty dept, age <= 0, marks < 0
    or marks > 100, and true exactly on the records that meet all four
    constraints. *)
Theorem isValid_spec (s : Student) :
  (isValid s = false <->
     name s = "" \/ dept s = "" \/ (age s <= 0)%Z \/ (marks s < 0)%Z \/ (marks s > 100)%Z)
  /\ (isValid s = true <->
        name s <> "" /\ dept s <> "" /\ (age s > 0)%Z /\ (0 <= marks s <= 100)%Z).
Proof.
  unfold isValid. rewrite Z.gtb_ltb.
  pose proof (falsy_true (name s)) as Hn1. pose proof (falsy_false (name s)) as Hn0.
  pose proof (falsy_true (dept s)) as Hd1. pose proof (falsy_false (dept s)) as Hd0.
  destruct (falsy (name s)), (falsy (dept s)); simpl;
    destruct (Z.leb_spec (age s) 0), (Z.ltb_spec (marks s) 0),
      (Z.ltb_spec 100 (marks s)); simpl;
    (split; split; intros Hyp; try discriminate; try reflexivity;
     intuition (try congruence; try lia)).
Qed.

(** What a passed validation says of the record, for the proofs below. *)
Lemma isValid_meets_constraints (s : Student) :
  isValid s = true <-> meets_constraints s.
Proof.
  unfold isValid, meets_constraints. rewrite Z.gtb_ltb.
  rewrite <- !falsy_false.
  destruct (falsy (name s)), (falsy (dept s)); simpl;
    try (split; [discriminate | intros (? & ? & _); congruence]).
  destruct (Z.leb_spec (age s) 0); [split; [discriminate | lia]|].
  destruct (Z.ltb_spec (marks s) 0); [split; [discriminate | lia]|].
  destruct (Z.ltb_spec 100 (marks s)); simpl; [split; [discriminate | lia]|].
  split; [intros _|reflexivity]. repeat split; (reflexivity || lia).
Qed.

(** ** Arrays *)

Lemma spread_dense (l : list Student) : spread (dense l) = dense l.
Proof. unfold spread, dense. induction l; simpl; congruence. Qed.

Lemma length_dense (l : list Student) : length (dense l) = length l.
Proof. unfold dense. apply length_map. Qed.

Lemma lookup_dense (l : list Student) (i : nat) : dense l !! i = Item <$> l !! i.
Proof. unfold dense. apply list_lookup_fmap. Qed.

Lemma filter_other_gt (index : nat) (l : list Student) (k : nat) :
  index < k -> filter_other index k (dense l) = dense l.
Proof.
  revert k. induction l as [|s r IH]; intros k Hk; simpl; [reflexivity|].
  destruct (Nat.eqb_spec k index); [lia|].
  rewrite IH by lia. reflexivity.
Qed.

Lemma filter_other_dense (index : nat) (l : list Student) (k : nat) :
  k <= index -> filter_other index k (dense l) = dense (delete (index - k) l).
Proof.
  revert k. induction l as [|s r IH]; intros k Hk; simpl; [reflexivity|].
  destruct (Nat.eqb_spec k index) as [->|Hne].
  - rewrite Nat.sub_diag. simpl. apply filter_other_gt. lia.
  - rewrite IH by lia.
    replace (index - k) with (S (index - S k)) by lia. reflexivity.
Qed.

Lemma filter_other_full_gt (index : nat) (a : list slot) (k : nat) :
  Forall (fun x => is_hole x = false) a -> index < k -> filter_other index k a = a.
Proof.
  intros Hfull. revert k. induction Hfull as [|x r Hx _ IH]; intros k Hk; [reflexivity|].
  destruct x; [discriminate|..]; cbn [filter_other];
    (destruct (Nat.eqb_spec k index); [lia|]); rewrite IH by lia; reflexivity.
Qed.

(** On an array without empty slots the filter of [handleDelete] is the
    removal of the position. *)
Lemma filter_other_full (index : nat) (a : list slot) (k : nat) :
  Forall (fun x => is_hole x = false) a -> k <= index ->
  filter_other index k a = delete (index - k) a.
Proof.
  intros Hfull. revert k. induction Hfull as [|x r Hx Hr IH]; intros k Hk; [reflexivity|].
  destruct (Nat.eqb_spec k index) as [->|Hne].
  - rewrite Nat.sub_diag. cbn [delete list_delete].
    destruct x; [discriminate|..]; cbn [filter_other]; rewrite Nat.eqb_refl;
      apply filter_other_full_gt; (exact Hr || lia).
  - replace (index - k) with (S (index - S k)) by lia.
    cbn [delete list_delete]. fold (@delete nat (list slot) _).
    destruct x; [discriminate|..]; cbn [filter_other];
      (destruct (Nat.eqb_spec k index); [lia|]); rewrite IH by lia; reflexivity.
Qed.

(** ** Add / update *)

(** C4: a candidate that fails [isValid] changes nothing: [handleSubmit]
    returns the state it was given (list, edit index and form contents
    included) and raises the alert. *)
Theorem handleSubmit_invalid (st : State) :
  isValid (formData st) = false ->
  handleSubmit st = (st, [Alert validationMessage]).
Proof. intros H. unfold handleSubmit. rewrite H. reflexivity. Qed.

(** The scenario of the specification: the list [Alice], the candidate
    Bob of age 0. *)
Lemma handleSubmit_invalid_bob :
  isValid bob_age0 = false
  /\ handleSubmit (editing [alice] bob_age0 None)
     = (editing [alice] bob_age0 None, [Alert validationMessage])
  /\ length (students (fst (handleSubmit (editing [alice] bob_age0 None)))) = 1.
Proof.
  split; [reflexivity|].
  split; [apply (handleSubmit_invalid (editing [alice] bob_age0 None)); reflexivity|].
  reflexivity.
Defined.

(** C3, as the specification states it, fails past the end of the list,
    and the component gets there by itself: in the list Alice, Bob, click
    Edit on the second row, then delete the first row twice. The list is
    empty and the edit index is still 1. The submit of the form (Bob, a
    valid candidate) does not append, which would give length 1: the
    array grows to length 2 with an empty slot before the candidate. *)
Lemma handleSubmit_past_end :
  exists st1 st2 st3,
    clickEdit 1 (editing [alice; bob] emptyForm None) = Done st1
    /\ clickDelete true 0 st1 = Done st2
    /\ clickDelete true 0 st2 = Done st3
    /\ students st3 = []
    /\ editIndex st3 = Some 1
    /\ isValid (formData st3) = true
    /\ students (fst (handleSubmit st3)) = [Hole; Item bob]
    /\ length (students (fst (handleSubmit st3))) <> length (students st3) + 1.
Proof.
  eexists _, _, _. split; [reflexivity|]. split; [reflexivity|].
  split; [reflexivity|]. split; [reflexivity|]. split; [reflexivity|].
  split; [reflexivity|]. split; [reflexivity|]. simpl. lia.
Qed.

(** C3, amended: for every list and every valid candidate,
    - with an edit index inside the list the element there is replaced:
      the length and every other position are unchanged;
    - with no edit index, or with the edit index equal to the length,
      the candidate is appended: the length grows by one and the prior
      elements keep position and value.
    The positions are those of the copy the handler works on, which
    holds every element of the list at its position. In every case the
    edit index is cleared and the form is reset. *)
Theorem handleSubmit_upsert (a : list slot) (f : Student) (e : option nat)
    (q : string) (d : bool) (p : Z) :
  isValid f = true ->
  exists a',
    handleSubmit (mkState a f e q d p) = (mkState a' emptyForm None q d p, [])
    /\ (forall i, e = Some i -> i < length a ->
          length a' = length a
          /\ a' !! i = Some (Item f)
          /\ (forall j, j <> i -> a' !! j = spread a !! j))
    /\ (e = None \/ e = Some (length a) ->
          length a' = length a + 1
          /\ a' !! length a = Some (Item f)
          /\ (forall j, j < length a -> a' !! j = spread a !! j))
    /\ (forall j x, a !! j = Some x -> is_hole x = false -> spread a !! j = Some x).
Proof.
  intros Hv.
  assert (Hlen : length (spread a) = length a) by apply length_map.
  assert (Happ : length (spread a ++ [Item f]) = length a + 1
                 /\ (spread a ++ [Item f]) !! length a = Some (Item f)
                 /\ (forall j, j < length a -> (spread a ++ [Item f]) !! j = spread a !! j)).
  { split; [rewrite length_app, Hlen; reflexivity|]. split.
    - rewrite lookup_app_r by lia. rewrite Hlen, Nat.sub_diag. reflexivity.
    - intros j Hj. apply lookup_app_l. lia. }
  assert (Hcopy : forall j x, a !! j = Some x -> is_hole x = false ->
                              spread a !! j = Some x).
  { intros j x Hx Hh. unfold spread. change (map ?g a) with (g <$> a).
    rewrite list_lookup_fmap, Hx. destruct x; [discriminate | reflexivity ..]. }
  unfold handleSubmit. cbn [formData editIndex students]. rewrite Hv. cbn [negb].
  unfold set_formData, set_editIndex, set_students.
  cbn [students formData editIndex search darkMode currentPage].
  destruct e as [i|]; eexists; (split; [reflexivity|]).
  - unfold array_set. rewrite Hlen. split; [|split; [|exact Hcopy]].
    + intros i' Hi' Hlt. injection Hi' as <-.
      destruct (Nat.ltb_spec i (length a)); [|lia].
      rewrite length_insert, Hlen. split; [reflexivity|]. split.
      * apply list_lookup_insert_eq. lia.
      * intros j Hj. apply list_lookup_insert_ne. congruence.
    + intros [He|He]; [discriminate|]. injection He as ->.
      rewrite Nat.ltb_irrefl, Nat.sub_diag. exact Happ.
  - split; [intros i Hi; discriminate|]. split; [|exact Hcopy].
    intros _. exact Happ.
Qed.

(** Replacing the second Alice of the list Alice, Alice by Bob. *)
Lemma handleSubmit_upsert_replace :
  isValid bob = true
  /\ exists a',
       handleSubmit (mkState (dense [alice; alice]) bob (Some 1) "" false 1)
       = (mkState a' emptyForm None "" false 1, [])
       /\ a' = [Item alice; Item bob].
Proof.
  split; [reflexivity|].
  destruct (handleSubmit_upsert (dense [alice; alice]) bob (Some 1) "" false 1 eq_refl)
    as (a' & Heq & _).
  exists a'. split; [exact Heq|].
  vm_compute in Heq. injection Heq as <-. reflexivity.
Defined.

(** ** Delete *)

(** The scenario of the specification: deleting at index 0 of the list
    Alice, Bob leaves Bob. *)
Example handleDelete_first :
  handleDelete true 0 (editing [alice; bob] emptyForm None)
  = Done (editing [bob] emptyForm None).
Proof. reflexivity. Qed.

(** C5, as the specification states it, fails out of range: deleting at
    index 5 of a one-record list does not fail; the handler returns and
    the list is unchanged. *)
Lemma handleDelete_out_of_range :
  handleDelete true 5 (editing [alice] emptyForm None)
  = Done (editing [alice] emptyForm None).
Proof. reflexivity. Qed.

(** C5, amended: [handleDelete] never fails, whatever the list, the
    index and the answer to the confirmation. On a list without empty
    slots, once confirmed, an index inside the list removes exactly that
    element: the length drops by one, every position before it is
    unchanged and every position from it on holds the old next element;
    an index out of range leaves the list as it is. *)
Theorem handleDelete_removeAt (a : list slot) (f : Student) (e : option nat)
    (q : string) (d : bool) (p : Z) (i : nat) :
  handleDelete false i (mkState a f e q d p) = Done (mkState a f e q d p)
  /\ exists a',
       handleDelete true i (mkState a f e q d p) = Done (mkState a' f e q d p)
       /\ (Forall (fun x => is_hole x = false) a ->
             (i < length a ->
                length a' + 1 = length a
                /\ (forall j, j < i -> a' !! j = a !! j)
                /\ (forall j, i <= j -> a' !! j = a !! S j))
             /\ (length a <= i -> a' = a)).
Proof.
  split; [reflexivity|]. eexists. split; [reflexivity|]. intros Hfull.
  cbn [students]. rewrite filter_other_full by (exact Hfull || lia).
  rewrite Nat.sub_0_r. split.
  - intros Hi. split; [|split].
    + rewrite length_delete by (apply lookup_lt_is_Some; lia). lia.
    + intros j Hj. apply list_lookup_delete_lt. lia.
    + intros j Hj. apply list_lookup_delete_ge. lia.
  - intros Hi. rewrite delete_take_drop, take_ge, drop_ge by lia.
    apply app_nil_r.
Qed.

(** ** Search *)

Lemma append_assoc (a b c : string) : (a +:+ b) +:+ c = a +:+ (b +:+ c).
Proof. induction a as [|x a IH]; simpl; [reflexivity | now rewrite IH]. Qed.



Lemma includes_empty (s : string) : includes s "" = true.
Proof. destruct s; reflexivity. Qed.

Lemma matches_empty (s : Student) : matches "" s = true.
Proof. unfold matches. simpl. rewrite includes_empty. reflexivity. Qed.

Lemma filter_search_dense (q : string) (l : list Student) :
  filter_search q (dense l) = Done (List.filter (matches q) l).
Proof.
  induction l as [|s r IH]; [reflexivity|].
  change (dense (s :: r)) with (Item s :: dense r).
  cbn [filter_search]. rewrite IH. reflexivity.
Qed.

Lemma filter_all {A : Type} (p : A -> bool) (l : list A) :
  (forall x, p x = true) -> List.filter p l = l.
Proof. intros H. induction l as [|x r IH]; simpl; [|rewrite H, IH]; reflexivity. Qed.

Lemma filter_sublist {A : Type} (p : A -> bool) (l : list A) :
  List.filter p l `sublist_of` l.
Proof.
  induction l as [|x r IH]; simpl; [constructor|].
  destruct (p x); [apply sublist_skip | apply sublist_cons]; exact IH.
Qed.

(** The query ALI, in capitals, finds Alice in the list Alice, Bob. *)
Example filteredStudents_capitals :
  filteredStudents (mkState (dense [alice; bob]) emptyForm None "ALI" false 1)
  = Done [alice].
Proof. reflexivity. Qed.












(** ** Pagination *)

Lemma slice_nonneg {A : Type} (l : list A) (a b : Z) :
  (0 <= a <= b)%Z ->
  slice l a b = take (Z.to_nat (b - a)) (drop (Z.to_nat a) l).
Proof.
  intros H. unfold slice.
  destruct (Z.ltb_spec a 0); [lia|]. destruct (Z.ltb_spec b 0); [lia|].
  destruct (Z_lt_le_dec a (Z.of_nat (length l))) as [Ha|Ha].
  - rewrite (Z.min_l a) by lia.
    destruct (Z_le_gt_dec b (Z.of_nat (length l))) as [Hb|Hb].
    + rewrite (Z.min_l b) by lia. reflexivity.
    + rewrite (Z.min_r b) by lia.
      rewrite !take_ge by (rewrite length_drop; lia). reflexivity.
  - rewrite (Z.min_r a) by lia. rewrite Nat2Z.id.
    rewrite drop_all, (drop_ge l (Z.to_nat a)) by lia.
    rewrite !take_nil. reflexivity.
Qed.

Lemma Math_ceil_div_spec (n d : Z) :
  (0 < d)%Z ->
  ((Math_ceil_div n d - 1) * d < n <= Math_ceil_div n d * d)%Z.
Proof.
  intros Hd. unfold Math_ceil_div.
  pose proof (Z.div_mod (- n) d ltac:(lia)) as Hdm.
  pose proof (Z.mod_pos_bound (- n) d Hd) as Hb.
  nia.
Qed.

Lemma window_eq (perPage page : Z) (l : list Student) :
  (0 < perPage)%Z -> (1 <= page)%Z ->
  fst (paginate perPage l page)
  = take (Z.to_nat perPage) (drop (Z.to_nat ((page - 1) * perPage)) l).
Proof.
  intros Hper Hpage. simpl. unfold indexOfFirst, indexOfLast.
  rewrite slice_nonneg by nia. f_equal; [f_equal; lia|]. f_equal. f_equal. lia.
Qed.

Lemma window_lookup (perPage page : Z) (l : list Student) (k : nat) :
  (0 < perPage)%Z -> (1 <= page)%Z ->
  fst (paginate perPage l page) !! k
  = if (Z.of_nat k <? perPage)%Z
    then l !! (Z.to_nat ((page - 1) * perPage) + k)
    else None.
Proof.
  intros Hper Hpage. rewrite window_eq by assumption.
  destruct (Z.ltb_spec (Z.of_nat k) perPage).
  - rewrite lookup_take_lt by lia. apply lookup_drop.
  - apply lookup_take_ge. lia.
Qed.

(** C7: for a page size above 0 and a page number from 1 on, the window
    is the elements at the indices from (page - 1) * size up to, and not
    including, page * size, as far as the list has them: position [k] of
    the window is position (page - 1) * size + k of the list for k below
    the size and nothing beyond; the page count [t] is the ceiling of
    length / size, the integer with (t - 1) * size < length <= t * size;
    a page past the last one has the empty window, and no page number
    makes the computation fail. *)
Theorem paginate_window (perPage page : Z) (l : list Student) :
  (0 < perPage)%Z -> (1 <= page)%Z ->
  let w := fst (paginate perPage l page) in
  let t := snd (paginate perPage l page) in
  w = take (Z.to_nat perPage) (drop (Z.to_nat ((page - 1) * perPage)) l)
  /\ (forall k : nat,
        w !! k = if (Z.of_nat k <? perPage)%Z
                 then l !! (Z.to_nat ((page - 1) * perPage) + k)
                 else None)
  /\ ((t - 1) * perPage < Z.of_nat (length l) <= t * perPage)%Z
  /\ ((t < page)%Z -> w = []).
Proof.
  intros Hper Hpage w t. subst w t.
  split; [apply window_eq; assumption|].
  split; [intros k; apply window_lookup; assumption|].
  split; [apply Math_ceil_div_spec, Hper|].
  intros Ht. rewrite window_eq by assumption.
  pose proof (Math_ceil_div_spec (Z.of_nat (length l)) perPage Hper).
  simpl in Ht. rewrite drop_ge by nia. apply take_nil.
Qed.

(** The scenario of the specification: 12 records, page 3 of size 5: the
    window holds the records at the indices 10 and 11, and there are 3
    pages. *)
Lemma paginate_window_12 :
  (0 < 5)%Z /\ (1 <= 3)%Z
  /\ fst (paginate 5 (replicate 10 alice ++ [bob; carol]) 3) = [bob; carol]
  /\ snd (paginate 5 (replicate 10 alice ++ [bob; carol]) 3) = 3%Z.
Proof.
  split; [lia|]. split; [lia|].
  destruct (paginate_window 5 3 (replicate 10 alice ++ [bob; carol])
              ltac:(lia) ltac:(lia)) as (Hw & _ & Ht & _).
  split; [exact Hw|]. reflexivity.
Defined.

(** ** Row buttons *)

Lemma filter_search_Done (q : string) (a : list slot) (r : list Student) :
  filter_search q a = Done r -> existsb nullish a = false.
Proof.
  revert r. induction a as [|x t IH]; intros r H; [reflexivity|].
  destruct x; cbn [filter_search] in H; try discriminate; cbn [existsb nullish orb].
  - exact (IH r H).
  - destruct (filter_search q t) as [r'|]; [|discriminate]. exact (IH r' eq_refl).
Qed.

(** An array that holds neither an empty slot nor [undefined] nor [null]
    is a list of records. *)
Lemma dense_records (a : list slot) :
  Forall (fun x => is_hole x = false) a -> existsb nullish a = false ->
  a = dense (records a).
Proof.
  intros Hfull. induction Hfull as [|x r Hx _ IH]; intros Hn; [reflexivity|].
  cbn [existsb] in Hn. apply orb_false_iff in Hn as [Hnx Hnr].
  destruct x; try discriminate. cbn [records].
  change (dense (?s :: ?t)) with (Item s :: dense t). f_equal. apply IH, Hnr.
Qed.

(** C10, as the specification states it, fails with the empty query on
    a list with an empty slot, and the component gets there by itself:
    in the list Alice, Bob, click Edit on the second row, delete the
    first row twice and submit the form. The list is an empty slot
    followed by Bob; the query is empty and the one row displayed shows
    Bob, but its buttons pass the index 0, where the empty slot is: Edit
    does not load Bob (the component fails on the form data it sets) and
    Delete leaves Bob in the list. *)
Lemma row_index_hole :
  exists st1 st2 st3,
    clickEdit 1 (editing [alice; bob] emptyForm None) = Done st1
    /\ clickDelete true 0 st1 = Done st2
    /\ clickDelete true 0 st2 = Done st3
    /\ students (fst (handleSubmit st3)) = [Hole; Item bob]
    /\ search (fst (handleSubmit st3)) = EmptyString
    /\ currentStudents (fst (handleSubmit st3)) = Done [bob]
    /\ students (fst (handleSubmit st3)) !! rowIndex (fst (handleSubmit st3)) 0 = Some Hole
    /\ clickEdit 0 (fst (handleSubmit st3)) = Throw TypeError
    /\ clickDelete true 0 (fst (handleSubmit st3))
       = Done (set_students (fst (handleSubmit st3)) [Item bob]).
Proof.
  eexists _, _, _. split; [reflexivity|]. split; [reflexivity|].
  split; [reflexivity|]. repeat split.
Qed.

(** C10, amended: the Edit and Delete buttons of a row pass
    [indexOfFirst] + the row's offset in the filtered, paginated view,
    and the handlers apply it to the stored list. With the empty query,
    on a list without empty slots and from page 1 on, the record at that
    index is the record shown in the row: Edit loads it into the form
    with that index and Delete removes that position. With a query that
    filters it need not be: for some list of records and some query that
    is not empty, the record that Edit loads and that Delete removes is
    another one than the record shown in the row, which stays in the
    list. *)
Theorem row_index_addressing :
  (forall (st : State) (w : list Student) (row : nat) (s : Student),
      Forall (fun x => is_hole x = false) (students st) ->
      search st = "" ->
      (1 <= currentPage st)%Z ->
      currentStudents st = Done w ->
      w !! row = Some s ->
      students st !! rowIndex st row = Some (Item s)
      /\ clickEdit row st
         = Done (set_editIndex (set_formData st s) (Some (rowIndex st row)))
      /\ clickDelete true row st
         = Done (set_students st (delete (rowIndex st row) (students st))))
  /\ (exists (l : list Student) (q : string) (row : nat) (shown addressed : Student),
        q <> ""
        /\ (exists w, currentStudents (mkState (dense l) emptyForm None q false 1) = Done w
                      /\ w !! row = Some shown)
        /\ l !! rowIndex (mkState (dense l) emptyForm None q false 1) row = Some addressed
        /\ shown <> addressed
        /\ clickEdit row (mkState (dense l) emptyForm None q false 1)
           = Done (mkState (dense l) addressed
                     (Some (rowIndex (mkState (dense l) emptyForm None q false 1) row))
                     q false 1)
        /\ clickDelete true row (mkState (dense l) emptyForm None q false 1)
           = Done (mkState
                     (dense (delete (rowIndex (mkState (dense l) emptyForm None q false 1) row) l))
                     emptyForm None q false 1)
        /\ In shown (delete (rowIndex (mkState (dense l) emptyForm None q false 1) row) l)).
Proof.
  split.
  - intros st w row s Hfull Hq Hp Hw Hrow.
    unfold currentStudents, filteredStudents in Hw.
    destruct (filter_search (search st) (students st)) as [r|] eqn:Hf; [|discriminate].
    pose proof (dense_records _ Hfull (filter_search_Done _ _ _ Hf)) as Hl.
    set (l := records (students st)) in *.
    rewrite Hl, Hq, filter_search_dense, filter_all in Hf by apply matches_empty.
    injection Hf as <-. cbn [bind] in Hw. injection Hw as <-.
    change (slice l _ _) with (fst (paginate studentsPerPage l (currentPage st))) in Hrow.
    rewrite window_lookup in Hrow by (reflexivity || exact Hp).
    destruct (Z.ltb_spec (Z.of_nat row) studentsPerPage); [|discriminate].
    assert (Hidx : rowIndex st row = Z.to_nat ((currentPage st - 1) * studentsPerPage) + row).
    { unfold rowIndex, indexOfFirst, indexOfLast, studentsPerPage in *. lia. }
    assert (Hat : students st !! rowIndex st row = Some (Item s)).
    { rewrite Hl, lookup_dense, Hidx, Hrow. reflexivity. }
    split; [exact Hat|]. split.
    + unfold clickEdit, handleEdit. rewrite Hat. reflexivity.
    + unfold clickDelete, handleDelete.
      rewrite filter_other_full, Nat.sub_0_r by (exact Hfull || lia). reflexivity.
  - exists [alice; bob], "bob", 0, bob, alice.
    split; [discriminate|]. split; [exists [bob]; split; reflexivity|].
    split; [reflexivity|]. split; [discriminate|]. split; [reflexivity|].
    split; [reflexivity|]. left. reflexivity.
Qed.

(** The first row of the unfiltered list Alice, Bob addresses Alice. *)
Lemma row_index_addressing_alice :
  students (editing [alice; bob] emptyForm None)
    !! rowIndex (editing [alice; bob] emptyForm None) 0
  = Some (Item alice).
Proof.
  apply (proj1 row_index_addressing (editing [alice; bob] emptyForm None)
           [alice; bob] 0 alice);
    [repeat constructor | reflexivity | simpl; lia | reflexivity | reflexivity].
Defined.

(** ** JSON text *)

Lemma parse_chars_quote_char (c : ascii) (tail t rest : string) :
  parse_chars tail = Some (Some t, rest) ->
  parse_chars (quote_char c +:+ tail) = Some (Some (String c t), rest).
Proof.
  intros H.
  destruct c as [[] [] [] [] [] [] [] []]; simpl; rewrite H; reflexivity.
Qed.

Lemma parse_chars_quote_body (s rest : string) :
  parse_chars (quote_body s +:+ String dquote rest) = Some (Some s, rest).
Proof.
  induction s as [|c s IH]; [reflexivity|].
  cbn [quote_body]. rewrite append_assoc.
  apply parse_chars_quote_char. exact IH.
Qed.

Lemma read_digits_digits (d : Decimal.uint) (rest : string) :
  read_digits rest = (Decimal.Nil, rest) ->
  read_digits (digits d +:+ rest) = (d, rest).
Proof.
  intros H. induction d; simpl; rewrite ?IHd; auto.
Qed.

Lemma unorm_to_uint (p : positive) : Decimal.unorm (Pos.to_uint p) = Pos.to_uint p.
Proof.
  rewrite <- DecimalPos.Unsigned.to_of, DecimalPos.Unsigned.of_to. reflexivity.
Qed.

Lemma to_int_normal (z : Z) :
  match Z.to_int z with
  | Decimal.Pos d => Decimal.unorm d = d
  | Decimal.Neg d => Decimal.unorm d = d
  end.
Proof. destruct z; simpl; auto using unorm_to_uint. Qed.

Lemma parse_unsigned_digits (d : Decimal.uint) (c : ascii) (r : string) (neg : bool) :
  Decimal.unorm d = d -> closes_number c ->
  parse_unsigned neg (digits d +:+ String c r)
  = Some (JNum (Z.of_int (if neg then Decimal.Neg d else Decimal.Pos d)), String c r).
Proof.
  intros Hd Hc. unfold parse_unsigned.
  rewrite read_digits_digits by (destruct Hc as [-> | ->]; reflexivity).
  rewrite Hd, (Decimal.internal_uint_dec_lb d d eq_refl).
  destruct Hc as [-> | ->]; reflexivity.
Qed.

Lemma parse_number_toString (z : Z) (c : ascii) (r : string) :
  closes_number c ->
  parse_number (Number_toString z +:+ String c r) = Some (JNum z, String c r).
Proof.
  intros Hc. unfold Number_toString.
  pose proof (to_int_normal z) as Hn. pose proof (DecimalZ.of_to z) as Hz.
  destruct (Z.to_int z) as [d | d].
  - rewrite <- Hz. rewrite <- (parse_unsigned_digits d c r false Hn Hc).
    unfold parse_number.
    destruct d; try reflexivity. discriminate Hn.
  - rewrite <- Hz. rewrite <- (parse_unsigned_digits d c r true Hn Hc).
    reflexivity.
Qed.

Lemma Number_toString_head (z : Z) :
  exists c s, Number_toString z = String c s /\ number_head c = true.
Proof.
  unfold Number_toString. pose proof (to_int_normal z) as Hn.
  destruct (Z.to_int z) as [d | d]; [|eexists _, _; split; reflexivity].
  destruct d; try discriminate Hn; eexists _, _; split; reflexivity.
Qed.

Lemma parse_value_number_head (f : nat) (c : ascii) (s : string) :
  number_head c = true ->
  parse_value (S f) (String c s) = parse_number (String c s).
Proof.
  intros H. destruct c as [[] [] [] [] [] [] [] []]; try discriminate H; reflexivity.
Qed.

Lemma parse_value_number (f : nat) (z : Z) (c : ascii) (r : string) :
  closes_number c ->
  parse_value (S f) (Number_toString z +:+ String c r) = Some (JNum z, String c r).
Proof.
  intros Hc. rewrite <- (parse_number_toString z c r Hc).
  destruct (Number_toString_head z) as (c0 & s0 & -> & Hh).
  apply (parse_value_number_head f c0 _ Hh).
Qed.

Lemma QuoteJSONString_append (v t : string) :
  QuoteJSONString v +:+ t = String dquote (quote_body v +:+ String dquote t).
Proof. unfold QuoteJSONString. simpl. rewrite append_assoc. reflexivity. Qed.

Lemma parse_value_quoted (f : nat) (r : string) :
  parse_value (S f) (String dquote r)
  = match parse_chars r with
    | Some (x, rest) => Some (JStr x, rest)
    | None => None
    end.
Proof. reflexivity. Qed.

Lemma parse_value_string (f : nat) (v rest : string) :
  parse_value (S f) (QuoteJSONString v +:+ rest) = Some (JStr (Some v), rest).
Proof.
  rewrite QuoteJSONString_append, parse_value_quoted, parse_chars_quote_body.
  reflexivity.
Qed.

Lemma parse_members_more (f : nat) (r r2 r4 rest : string) (k : option string)
    (v : json) (m : list (option string * json)) :
  parse_chars r = Some (k, String ":" r2) ->
  parse_value f r2 = Some (v, String "," r4) ->
  parse_members f r4 = Some (m, rest) ->
  parse_members (S f) (String dquote r) = Some ((k, v) :: m, rest).
Proof. intros H1 H2 H3. simpl. rewrite H1. simpl. rewrite H2. simpl. rewrite H3. reflexivity. Qed.

Lemma parse_members_last (f : nat) (r r2 rest : string) (k : option string) (v : json) :
  parse_chars r = Some (k, String ":" r2) ->
  parse_value f r2 = Some (v, String "}" rest) ->
  parse_members (S f) (String dquote r) = Some ([(k, v)], rest).
Proof. intros H1 H2. simpl. rewrite H1. simpl. rewrite H2. reflexivity. Qed.

Lemma parse_value_object (f : nat) (r rest : string) (m : list (option string * json)) :
  parse_members f (String dquote r) = Some (m, rest) ->
  parse_value (S f) (String "{" (String dquote r)) = Some (JObj m, rest).
Proof.
  intros H.
  transitivity (match parse_members f (String dquote r) with
                | Some (m, rest) => Some (JObj m, rest)
                | None => None
                end); [reflexivity | rewrite H; reflexivity].
Qed.

Lemma parse_elements_more (f : nat) (s r rest : string) (v : json) (l : list json) :
  parse_value f s = Some (v, String "," r) ->
  parse_elements f r = Some (l, rest) ->
  parse_elements (S f) s = Some (v :: l, rest).
Proof. intros H1 H2. simpl. rewrite H1. simpl. rewrite H2. reflexivity. Qed.

Lemma parse_elements_last (f : nat) (s rest : string) (v : json) :
  parse_value f s = Some (v, String "]" rest) ->
  parse_elements (S f) s = Some ([v], rest).
Proof. intros H1. simpl. rewrite H1. reflexivity. Qed.

Lemma parse_value_array (f : nat) (c : ascii) (r rest : string) (l : list json) :
  opens_element c ->
  parse_elements f (String c r) = Some (l, rest) ->
  parse_value (S f) (String "[" (String c r)) = Some (JArr l, rest).
Proof.
  intros Hc H.
  transitivity (match parse_elements f (String c r) with
                | Some (l, rest) => Some (JArr l, rest)
                | None => None
                end); [|rewrite H; reflexivity].
  destruct Hc as [-> | ->]; reflexivity.
Qed.

Lemma parse_value_null (f : nat) (rest : string) :
  parse_value (S f) ("null" +:+ rest) = Some (JNull, rest).
Proof. reflexivity. Qed.

Lemma stringify_student_append (s : Student) (rest : string) :
  stringify_student s +:+ rest
  = String "{" (QuoteJSONString "name" +:+ ":" +:+ QuoteJSONString (name s) +:+ ","
      +:+ QuoteJSONString "dept" +:+ ":" +:+ QuoteJSONString (dept s) +:+ ","
      +:+ QuoteJSONString "age" +:+ ":" +:+ Number_toString (age s) +:+ ","
      +:+ QuoteJSONString "marks" +:+ ":" +:+ Number_toString (marks s) +:+ "}" +:+ rest).
Proof. unfold stringify_student. rewrite !append_assoc. reflexivity. Qed.

Lemma parse_value_student (f : nat) (s : Student) (rest : string) :
  parse_value (6 + f) (stringify_student s +:+ rest) = Some (json_of_student s, rest).
Proof.
  rewrite stringify_student_append.
  rewrite (QuoteJSONString_append "name").
  apply parse_value_object.
  eapply parse_members_more.
  { apply (parse_chars_quote_body "name"). }
  { apply parse_value_string. }
  rewrite (QuoteJSONString_append "dept").
  eapply parse_members_more.
  { apply (parse_chars_quote_body "dept"). }
  { apply parse_value_string. }
  rewrite (QuoteJSONString_append "age").
  eapply parse_members_more.
  { apply (parse_chars_quote_body "age"). }
  { apply parse_value_number. left. reflexivity. }
  rewrite (QuoteJSONString_append "marks").
  eapply parse_members_last.
  { apply (parse_chars_quote_body "marks"). }
  apply parse_value_number. right. reflexivity.
Qed.

Lemma parse_value_slot (f : nat) (x : slot) (rest : string) :
  parse_value (6 + f) (stringify_slot x +:+ rest) = Some (json_of_slot x, rest).
Proof. destruct x; try apply parse_value_null. apply parse_value_student. Qed.

Lemma parse_value_no_record (f : nat) (x : slot) (rest : string) :
  is_record x = false ->
  parse_value (1 + f) (stringify_slot x +:+ rest) = Some (json_of_slot x, rest).
Proof. destruct x; try discriminate; intros _; apply parse_value_null. Qed.

Lemma stringify_slot_head (x : slot) (rest : string) :
  exists c r, stringify_slot x +:+ rest = String c r /\ opens_element c.
Proof.
  destruct x; try (exists "n"%char; eexists; split; [reflexivity | right; reflexivity]).
  cbn [stringify_slot]. rewrite stringify_student_append.
  eexists _, _. split; [reflexivity | left; reflexivity].
Qed.

Lemma stringify_elements_cons (x : slot) (a : list slot) (rest : string) :
  stringify_elements (x :: a) +:+ rest
  = stringify_slot x +:+
      match a with
      | [] => rest
      | _ :: _ => String "," (stringify_elements a +:+ rest)
      end.
Proof.
  destruct a as [|y a]; [reflexivity|].
  change (stringify_elements (x :: y :: a))
    with (stringify_slot x +:+ "," +:+ stringify_elements (y :: a)).
  rewrite !append_assoc. reflexivity.
Qed.

(** Every element of the array is read back with [k] units of fuel. *)
Lemma parse_elements_slots (k : nat) (a : list slot) (x : slot) (f : nat) (rest : string) :
  Forall (fun y => forall g t,
            parse_value (k + g) (stringify_slot y +:+ t) = Some (json_of_slot y, t))
    (x :: a) ->
  parse_elements (S k + (length a + f)) (stringify_elements (x :: a) +:+ String "]" rest)
  = Some (map json_of_slot (x :: a), rest).
Proof.
  revert x. induction a as [|y a IH]; intros x Hk; rewrite stringify_elements_cons;
    inversion Hk as [|? ? Hx Ha]; subst.
  - replace (S k + (length (@nil slot) + f)) with (S (k + f)) by (cbn [length]; lia).
    apply parse_elements_last. apply Hx.
  - replace (S k + (length (y :: a) + f)) with (S (S k + (length a + f)))
      by (cbn [length]; lia).
    eapply parse_elements_more.
    + replace (S k + (length a + f)) with (k + S (length a + f)) by lia. apply Hx.
    + apply IH, Ha.
Qed.

Lemma length_append (a b : string) :
  String.length (a +:+ b) = String.length a + String.length b.
Proof. induction a as [|c a IH]; simpl; [reflexivity | now rewrite IH]. Qed.

Lemma length_stringify_student (s : Student) : 8 <= String.length (stringify_student s).
Proof.
  unfold stringify_student, QuoteJSONString.
  repeat (rewrite ?length_append; cbn [String.length]). lia.
Qed.

Lemma length_stringify_slot (x : slot) : 4 <= String.length (stringify_slot x).
Proof.
  destruct x as [| | |s]; cbn [stringify_slot]; [simpl; lia ..|].
  pose proof (length_stringify_student s). lia.
Qed.

Lemma length_stringify_elements (x : slot) (a : list slot) :
  String.length (stringify_slot x) + 5 * length a
  <= String.length (stringify_elements (x :: a)).
Proof.
  revert x. induction a as [|y a IH]; intros x.
  - cbn [stringify_elements length]. lia.
  - change (stringify_elements (x :: y :: a))
      with (stringify_slot x +:+ "," +:+ stringify_elements (y :: a)).
    rewrite !length_append. cbn [length]. change (String.length ",") with 1.
    pose proof (IH y). pose proof (length_stringify_slot y). lia.
Qed.

(** [JSON.parse] reads what [JSON.stringify] wrote. *)
Lemma JSON_parse_stringify (a : list slot) :
  JSON.parse (JSON.stringify a) = Some (JArr (map json_of_slot a)).
Proof.
  destruct a as [|x a]; [reflexivity|].
  unfold JSON.parse, JSON.stringify.
  change ("[" +:+ stringify_elements (x :: a) +:+ "]")
    with (String "[" (stringify_elements (x :: a) +:+ String "]" EmptyString)).
  cbn [String.length]. rewrite length_append. cbn [String.length].
  pose proof (length_stringify_elements x a) as Hlen.
  pose proof (length_stringify_slot x) as Hx.
  assert (Hparse : exists k f,
             S (String.length (stringify_elements (x :: a)) + 1) = S k + (length a + f)
             /\ Forall (fun y => forall g t,
                          parse_value (k + g) (stringify_slot y +:+ t)
                          = Some (json_of_slot y, t)) (x :: a)).
  { destruct (forallb (fun y => negb (is_record y)) (x :: a)) eqn:Hall.
    - exists 1, (String.length (stringify_elements (x :: a)) - length a).
      split; [lia|]. rewrite forallb_forall in Hall. apply Forall_forall.
      intros y Hy g t. apply parse_value_no_record.
      apply list_elem_of_In, Hall, negb_true_iff in Hy. exact Hy.
    - exists 6, (String.length (stringify_elements (x :: a)) - 5 - length a).
      split.
      + destruct a as [|y a].
        * destruct x; try discriminate Hall.
          pose proof (length_stringify_student s). cbn [stringify_elements stringify_slot length] in *. lia.
        * cbn [length] in *. lia.
      + apply Forall_forall. intros y _ g t. apply parse_value_slot. }
  destruct Hparse as (k & f & -> & Hk).
  pose proof (parse_elements_slots k a x f EmptyString Hk) as H.
  rewrite stringify_elements_cons in H |- *.
  destruct (stringify_slot_head x
              match a with
              | [] => String "]" EmptyString
              | _ :: _ => String "," (stringify_elements a +:+ String "]" EmptyString)
              end) as (c & r & Heq & Hc).
  rewrite Heq in H |- *.
  rewrite (parse_value_array _ _ _ _ _ Hc H). reflexivity.
Qed.

Lemma slots_of_json_slots (a : list slot) :
  slots_of_json (map json_of_slot a) = Some (map reloaded a).
Proof.
  induction a as [|x a IH]; [reflexivity|].
  change (map json_of_slot (x :: a)) with (json_of_slot x :: map json_of_slot a).
  cbn [slots_of_json]. rewrite IH. destruct x as [| | |[]]; reflexivity.
Qed.

Lemma reloaded_dense (l : list Student) : map reloaded (dense l) = dense l.
Proof. unfold dense. induction l; simpl; congruence. Qed.

Lemma valid_list_reloaded (a : list slot) : valid_list a -> valid_list (map reloaded a).
Proof.
  unfold valid_list. intros H. induction H as [|x a Hx _ IH]; simpl; constructor.
  - destruct x; simpl; auto.
  - exact IH.
Qed.

(** ** Fuel *)

Lemma length_skip_ws (s : string) : String.length (skip_ws s) <= String.length s.
Proof.
  induction s as [|c s IH]; [reflexivity|].
  cbn [skip_ws]. destruct (is_ws c); cbn [String.length]; lia.
Qed.

Lemma length_strip (k : ascii) (s r : string) :
  strip k s = Some r -> String.length s = S (String.length r).
Proof.
  destruct s as [|c s]; [discriminate|]. cbn [strip].
  destruct (Ascii.eqb c k); [|discriminate]. intros [= ->]. reflexivity.
Qed.

Lemma length_strip_word (w s r : string) :
  strip_word w s = Some r -> String.length s = String.length w + String.length r.
Proof.
  revert s. induction w as [|k w IH]; intros s; cbn [strip_word].
  - intros [= ->]. reflexivity.
  - destruct (strip k s) as [t|] eqn:Hk; [|discriminate].
    intros H. apply IH in H. apply length_strip in Hk. cbn [String.length]. lia.
Qed.

Lemma length_parse_chars (s rest : string) (t : option string) :
  parse_chars s = Some (t, rest) -> String.length rest < String.length s.
Proof.
  remember (String.length s) as n eqn:Hn. revert s rest t Hn.
  induction n as [n IH] using lt_wf_ind. intros s rest t -> H.
  destruct s as [|c r]; [discriminate|]. cbn [parse_chars String.length] in *.
  destruct (Ascii.eqb c dquote); [injection H as <- <-; lia|].
  destruct (Ascii.eqb c backslash).
  - destruct r as [|e r1]; [discriminate|]. cbn [String.length].
    destruct (unescape e).
    + destruct (parse_chars r1) as [[t1 rest1]|] eqn:H1; [|discriminate].
      injection H as <- <-.
      apply (IH (String.length r1)) in H1; [lia | cbn [String.length]; lia | reflexivity].
    + destruct (Ascii.eqb e "u"); [|discriminate].
      destruct r1 as [|h1 [|h2 [|h3 [|h4 r2]]]]; try discriminate.
      destruct (hex4 h1 h2 h3 h4); [|discriminate].
      destruct (parse_chars r2) as [[t1 rest1]|] eqn:H1; [|discriminate].
      injection H as <- <-. cbn [String.length].
      apply (IH (String.length r2)) in H1; [lia | cbn [String.length]; lia | reflexivity].
  - destruct (N_of_ascii c <? 32)%N; [discriminate|].
    destruct (parse_chars r) as [[t1 rest1]|] eqn:H1; [|discriminate].
    injection H as <- <-.
    apply (IH (String.length r)) in H1; [lia | lia | reflexivity].
Qed.

Lemma length_read_digits (s rest : string) (d : Decimal.uint) :
  read_digits s = (d, rest) ->
  String.length rest <= String.length s
  /\ (d <> Decimal.Nil -> String.length rest < String.length s).
Proof.
  revert d rest. induction s as [|c s IH]; intros d rest; cbn [read_digits].
  - intros [= <- <-]. split; [reflexivity | congruence].
  - destruct (digit_of c) as [mk|].
    + destruct (read_digits s) as [t r] eqn:Hr. intros [= <- <-].
      destruct (IH t r eq_refl) as [Hle _]. cbn [String.length]. split; lia.
    + intros [= <- <-]. split; [reflexivity | congruence].
Qed.

Lemma length_some_digits (s rest : string) (b : bool) :
  some_digits s = Some (b, rest) -> String.length rest < String.length s.
Proof.
  unfold some_digits. destruct (read_digits s) as [d r] eqn:Hr.
  apply length_read_digits in Hr as [_ Hlt].
  destruct d; [discriminate|..]; intros [= <- <-]; apply Hlt; discriminate.
Qed.

Lemma length_parse_frac (s rest : string) (b : bool) :
  parse_frac s = Some (b, rest) -> String.length rest <= String.length s.
Proof.
  unfold parse_frac. destruct (strip "." s) as [r|] eqn:Hs.
  - intros H. apply length_some_digits in H. apply length_strip in Hs. lia.
  - intros [= <- <-]. reflexivity.
Qed.

Lemma length_parse_exp (s rest : string) (b : bool) :
  parse_exp s = Some (b, rest) -> String.length rest <= String.length s.
Proof.
  assert (Hbody : forall r, parse_exp_body r = Some (b, rest) ->
                            String.length rest < String.length r).
  { intros r. unfold parse_exp_body.
    destruct (strip "+" r) as [r1|] eqn:H1.
    - intros H. apply length_some_digits in H. apply length_strip in H1. lia.
    - destruct (strip "-" r) as [r1|] eqn:H2.
      + intros H. apply length_some_digits in H. apply length_strip in H2. lia.
      + apply length_some_digits. }
  unfold parse_exp. destruct (strip "e" s) as [r|] eqn:He.
  - intros H. apply Hbody in H. apply length_strip in He. lia.
  - destruct (strip "E" s) as [r|] eqn:HE.
    + intros H. apply Hbody in H. apply length_strip in HE. lia.
    + intros [= <- <-]. reflexivity.
Qed.

Lemma length_parse_unsigned (neg : bool) (s rest : string) (v : json) :
  parse_unsigned neg s = Some (v, rest) -> String.length rest < String.length s.
Proof.
  unfold parse_unsigned. destruct (read_digits s) as [d s2] eqn:Hd.
  destruct (Decimal.uint_beq (Decimal.unorm d) d) eqn:Hn; [|discriminate].
  apply Decimal.internal_uint_dec_bl in Hn.
  destruct (parse_frac s2) as [[frac s3]|] eqn:Hf; [|discriminate].
  destruct (parse_exp s3) as [[exp s4]|] eqn:He; [|discriminate].
  intros [= _ <-].
  apply length_read_digits in Hd as [_ Hlt].
  apply length_parse_frac in Hf. apply length_parse_exp in He.
  assert (d <> Decimal.Nil) by (intros ->; discriminate Hn).
  specialize (Hlt H). lia.
Qed.

Lemma length_parse_number (s rest : string) (v : json) :
  parse_number s = Some (v, rest) -> String.length rest < String.length s.
Proof.
  unfold parse_number. destruct (strip "-" s) as [r|] eqn:Hs.
  - intros H. apply length_parse_unsigned in H. apply length_strip in Hs. lia.
  - apply length_parse_unsigned.
Qed.

Lemma length_literal (w s rest : string) (v v' : json) :
  literal w v s = Some (v', rest) -> String.length s = String.length w + String.length rest.
Proof.
  unfold literal. destruct (strip_word w s) as [r|] eqn:Hw; [|discriminate].
  intros [= _ <-]. apply length_strip_word, Hw.
Qed.

Lemma length_parse_scalar (t rest : string) (v : json) :
  parse_scalar t = Some (v, rest) -> String.length rest < String.length t.
Proof.
  unfold parse_scalar. destruct (strip dquote t) as [r|] eqn:Hq.
  - destruct (parse_chars r) as [[x r1]|] eqn:Hc; [|discriminate].
    intros [= _ <-]. apply length_parse_chars in Hc. apply length_strip in Hq. lia.
  - destruct (literal "null" JNull t) as [[v1 r1]|] eqn:H1.
    { intros [= _ <-]. apply length_literal in H1. cbn [String.length] in H1. lia. }
    destruct (literal "true" (JBool true) t) as [[v2 r2]|] eqn:H2.
    { intros [= _ <-]. apply length_literal in H2. cbn [String.length] in H2. lia. }
    destruct (literal "false" (JBool false) t) as [[v3 r3]|] eqn:H3.
    { intros [= _ <-]. apply length_literal in H3. cbn [String.length] in H3. lia. }
    apply length_parse_number.
Qed.

Lemma parse_fuel (f : nat) :
  fuel_enough parse_value f /\ fuel_enough parse_elements f
  /\ fuel_enough parse_members f.
Proof.
  induction f as [|f (IHv & IHe & IHm)];
    [split; [|split]; intros s x rest H; discriminate H|].
  split; [|split]; intros s x rest H.
  - cbn [parse_value] in H. pose proof (length_skip_ws s) as Hws.
    destruct (strip "[" (skip_ws s)) as [r|] eqn:Hb.
    { apply length_strip in Hb as Hlb. pose proof (length_skip_ws r) as Hwr.
      destruct (strip "]" (skip_ws r)) as [r'|] eqn:Hc.
      - injection H as <- <-. apply length_strip in Hc as Hlc.
        split; [lia|]. intros [|g] Hg; [lia|].
        cbn [parse_value]. rewrite Hb, Hc. reflexivity.
      - destruct (parse_elements f r) as [[l rest']|] eqn:He; [|discriminate].
        injection H as <- <-. apply IHe in He as [Hlt Hmore].
        split; [lia|]. intros [|g] Hg; [lia|].
        cbn [parse_value]. rewrite Hb, Hc, (Hmore g) by lia. reflexivity. }
    destruct (strip "{" (skip_ws s)) as [r|] eqn:Ho.
    { apply length_strip in Ho as Hlo. pose proof (length_skip_ws r) as Hwr.
      destruct (strip "}" (skip_ws r)) as [r'|] eqn:Hc.
      - injection H as <- <-. apply length_strip in Hc as Hlc.
        split; [lia|]. intros [|g] Hg; [lia|].
        cbn [parse_value]. rewrite Hb, Ho, Hc. reflexivity.
      - destruct (parse_members f r) as [[m rest']|] eqn:He; [|discriminate].
        injection H as <- <-. apply IHm in He as [Hlt Hmore].
        split; [lia|]. intros [|g] Hg; [lia|].
        cbn [parse_value]. rewrite Hb, Ho, Hc, (Hmore g) by lia. reflexivity. }
    apply length_parse_scalar in H as Hlt.
    split; [lia|]. intros [|g] Hg; [lia|].
    cbn [parse_value]. rewrite Hb, Ho. exact H.
  - cbn [parse_elements] in H.
    destruct (parse_value f s) as [[v r1]|] eqn:Hv; [|discriminate].
    apply IHv in Hv as [Hlv Hmv]. pose proof (length_skip_ws r1) as Hws.
    destruct (strip "," (skip_ws r1)) as [r|] eqn:Hc.
    + apply length_strip in Hc as Hlc.
      destruct (parse_elements f r) as [[l rest']|] eqn:He; [|discriminate].
      injection H as <- <-. apply IHe in He as [Hle Hme].
      split; [lia|]. intros [|g] Hg; [lia|].
      cbn [parse_elements]. rewrite (Hmv g), Hc, (Hme g) by lia. reflexivity.
    + destruct (strip "]" (skip_ws r1)) as [r|] eqn:Hd; [|discriminate].
      injection H as <- <-. apply length_strip in Hd as Hld.
      split; [lia|]. intros [|g] Hg; [lia|].
      cbn [parse_elements]. rewrite (Hmv g), Hc, Hd by lia. reflexivity.
  - cbn [parse_members] in H. pose proof (length_skip_ws s) as Hws.
    destruct (strip dquote (skip_ws s)) as [r|] eqn:Hq; [|discriminate].
    apply length_strip in Hq as Hlq.
    destruct (parse_chars r) as [[k r1]|] eqn:Hk; [|discriminate].
    apply length_parse_chars in Hk as Hlk. pose proof (length_skip_ws r1) as Hw1.
    destruct (strip ":" (skip_ws r1)) as [r2|] eqn:Hc; [|discriminate].
    apply length_strip in Hc as Hlc.
    destruct (parse_value f r2) as [[v r3]|] eqn:Hv; [|discriminate].
    apply IHv in Hv as [Hlv Hmv]. pose proof (length_skip_ws r3) as Hw3.
    destruct (strip "," (skip_ws r3)) as [r4|] eqn:Hs.
    + apply length_strip in Hs as Hls.
      destruct (parse_members f r4) as [[m rest']|] eqn:He; [|discriminate].
      injection H as <- <-. apply IHm in He as [Hle Hme].
      split; [lia|]. intros [|g] Hg; [lia|].
      cbn [parse_members]. rewrite Hq, Hk, Hc, (Hmv g), Hs, (Hme g) by lia. reflexivity.
    + destruct (strip "}" (skip_ws r3)) as [r4|] eqn:Hd; [|discriminate].
      injection H as <- <-. apply length_strip in Hd as Hld.
      split; [lia|]. intros [|g] Hg; [lia|].
      cbn [parse_members]. rewrite Hq, Hk, Hc, (Hmv g), Hs, Hd by lia. reflexivity.
Qed.

(** A value that some amount of fuel reads is read with the fuel
    [JSON.parse] gives: [None] there is a [SyntaxError], never a lack of
    fuel. *)
Lemma parse_value_fuel (f : nat) (s rest : string) (v : json) :
  parse_value f s = Some (v, rest) ->
  parse_value (S (String.length s)) s = Some (v, rest).
Proof.
  intros H. destruct (parse_fuel f) as (Hv & _ & _).
  apply Hv in H as [_ Hmore]. apply Hmore. lia.
Qed.

Lemma parse_Some (text : string) (v : json) :
  JSON.parse text = Some v
  <-> exists f rest, parse_value f text = Some (v, rest) /\ skip_ws rest = "".
Proof.
  unfold JSON.parse. split.
  - destruct (parse_value (S (String.length text)) text) as [[v' rest]|] eqn:H;
      [|discriminate].
    destruct (skip_ws rest) eqn:Hr; [|discriminate]. intros [= <-]. eauto.
  - intros (f & rest & H & Hr). rewrite (parse_value_fuel _ _ _ _ H), Hr. reflexivity.
Qed.

(** ** The backing store *)

Lemma getItem_students_save (st : State) (ls : gmap string string) :
  getItem "students" (save st ls) = Some (JSON.stringify (students st)).
Proof.
  unfold getItem, save, setItem.
  rewrite lookup_insert_ne by discriminate. apply lookup_insert_eq.
Qed.

Lemma getItem_darkMode_save (st : State) (ls : gmap string string) :
  getItem "darkMode" (save st ls) = Some (String_of_bool (darkMode st)).
Proof. unfold getItem, save, setItem. apply lookup_insert_eq. Qed.

Lemma loadStudents_stringify (ls : gmap string string) (st : State) (a : list slot) :
  getItem "students" ls = Some (JSON.stringify a) ->
  loadStudents ls st = Loaded (set_students st (map reloaded a)).
Proof.
  intros H. unfold loadStudents. rewrite H.
  change (falsy (JSON.stringify a)) with false. cbv iota.
  rewrite JSON_parse_stringify. simpl. rewrite slots_of_json_slots. reflexivity.
Qed.

Lemma loadStudents_absent (ls : gmap string string) (st : State) :
  getItem "students" ls = None \/ getItem "students" ls = Some EmptyString ->
  loadStudents ls st = Loaded st.
Proof. intros [H | H]; unfold loadStudents; rewrite H; reflexivity. Qed.

(** C8: saving a state whose list holds records, whatever they are, and
    starting up from the store that results gives back the same list,
    field for field and in the same order, and the same dark-mode flag
    (the rest of the state is as a start-up sets it). *)
Theorem load_save (l : list Student) (flag : bool) (ls : gmap string string)
    (f : Student) (e : option nat) (q : string) (p : Z) :
  load (save (mkState (dense l) f e q flag p) ls)
  = Loaded (mkState (dense l) emptyForm None "" flag 1).
Proof.
  unfold load.
  rewrite (loadStudents_stringify _ _ (dense l)) by apply getItem_students_save.
  rewrite reloaded_dense.
  unfold initialState. rewrite getItem_darkMode_save. destruct flag; reflexivity.
Qed.

(** C9, as the specification states it, fails twice. A text that does
    not parse is not treated as absent: [JSON.parse] throws and the load
    does not return a state. And the two values are read independently:
    with no list stored and the dark mode stored as true, the start-up
    state has the dark mode on. *)
Lemma load_not_recovered :
  load store_unparseable = LoadThrows SyntaxError
  /\ getItem "students" store_dark_only = None
  /\ load store_dark_only = Loaded (mkState [] emptyForm None "" true 1).
Proof.
  unfold load, loadStudents, initialState, getItem, store_unparseable, store_dark_only.
  rewrite lookup_singleton_eq, lookup_singleton_ne by discriminate.
  rewrite lookup_singleton_ne, lookup_singleton_eq by discriminate.
  repeat split.
Qed.

(** C9, amended: the start-up reads the two values independently. The
    list is empty when the key "students" is absent or holds the empty
    text. The dark mode is on exactly when the key "darkMode" holds the
    text true, and off otherwise, absent included. A non-empty text that
    [JSON.parse] rejects is not recovered from: the load throws a
    [SyntaxError]. *)
Theorem load_cases (ls : gmap string string) :
  (getItem "students" ls = None \/ getItem "students" ls = Some "" ->
   load ls = Loaded (initialState ls) /\ students (initialState ls) = [])
  /\ (darkMode (initialState ls) = true <-> getItem "darkMode" ls = Some "true")
  /\ (forall stored,
        getItem "students" ls = Some stored -> stored <> "" ->
        JSON.parse stored = None ->
        load ls = LoadThrows SyntaxError).
Proof.
  split; [|split].
  - intros H. split; [apply loadStudents_absent, H | reflexivity].
  - unfold initialState. simpl. destruct (getItem "darkMode" ls) as [v|].
    + rewrite String.eqb_eq. split; congruence.
    + split; discriminate.
  - intros stored Hs Hne Hp. unfold load, loadStudents. rewrite Hs.
    apply falsy_false in Hne. rewrite Hne, Hp. reflexivity.
Qed.

(** The store whose list text is an opening brace alone. *)
Lemma load_cases_unparseable : load store_unparseable = LoadThrows SyntaxError.
Proof.
  apply (proj2 (proj2 (load_cases store_unparseable)) "{").
  - apply lookup_singleton_eq.
  - discriminate.
  - reflexivity.
Defined.

(** ** The invariant *)

Lemma valid_list_spread (a : list slot) : valid_list a -> valid_list (spread a).
Proof.
  unfold valid_list, spread. intros H. induction H as [|x a Hx _ IH]; simpl; constructor.
  - destruct x; simpl; auto.
  - exact IH.
Qed.

Lemma valid_list_array_set (a : list slot) (i : nat) (v : Student) :
  valid_list a -> meets_constraints v -> valid_list (array_set a i v).
Proof.
  unfold valid_list, array_set. intros Ha Hv. destruct (i <? length a).
  - apply Forall_insert; assumption.
  - apply Forall_app. split; [exact Ha|]. apply Forall_app. split.
    + apply Forall_replicate. exact I.
    + constructor; [exact Hv | constructor].
Qed.

Lemma valid_list_filter_other (index : nat) (a : list slot) (k : nat) :
  valid_list a -> valid_list (filter_other index k a).
Proof.
  unfold valid_list. intros H. revert k.
  induction H as [|x a Hx _ IH]; intros k; simpl; [constructor|].
  destruct x; try apply IH; destruct (k =? index); try apply IH; constructor; auto.
Qed.

Lemma valid_list_handleSubmit (st : State) :
  valid_list (students st) -> valid_list (students (fst (handleSubmit st))).
Proof.
  intros Hv. unfold handleSubmit.
  destruct (isValid (formData st)) eqn:Hf; simpl; [|exact Hv].
  destruct (editIndex st) as [i|]; simpl.
  - apply valid_list_array_set;
      [apply valid_list_spread, Hv | apply isValid_meets_constraints, Hf].
  - apply Forall_app. split; [apply valid_list_spread, Hv|].
    constructor; [apply isValid_meets_constraints, Hf | constructor].
Qed.


(** C1, as the specification states it, fails at the load: the load
    does not validate. From a store whose list holds the record of the
    empty form the start-up, whose list was empty and so valid, ends with
    that record in the list: a record of empty name and dept, age 0. *)
Lemma load_unvalidated :
  valid_list (students (initialState store_invalid_record))
  /\ load store_invalid_record = Loaded (mkState [Item emptyForm] emptyForm None "" false 1)
  /\ ~ valid_list [Item emptyForm].
Proof.
  split; [constructor|]. split.
  - unfold load.
    rewrite (loadStudents_stringify _ _ (dense [emptyForm])) by apply lookup_singleton_eq.
    reflexivity.
  - intros H. inversion H as [|? ? Hx _]. destruct Hx as [Hname _].
    apply Hname. reflexivity.
Qed.

(** C1, amended: that every record present in the list meets the
    constraints (name and dept not empty, age > 0, 0 <= marks <= 100) is
    preserved by a submit (append and replace, whatever the form and
    the edit index), by a delete (whatever the index and the answer to
    the confirmation), and by a load when the key "students" is absent,
    holds the empty text, or holds the text [JSON.stringify] writes for a
    list with that property, as the component's own save does; the load
    itself validates nothing. *)
Theorem valid_list_preserved (st : State) :
  valid_list (students st) ->
  valid_list (students (fst (handleSubmit st)))
  /\ (forall confirmed index,
        exists st', handleDelete confirmed index st = Done st'
                    /\ valid_list (students st'))
  /\ (forall ls,
        getItem "students" ls = None
        \/ getItem "students" ls = Some ""
        \/ (exists a, getItem "students" ls = Some (JSON.stringify a) /\ valid_list a) ->
        exists st', loadStudents ls st = Loaded st' /\ valid_list (students st'))
  /\ (forall ls st0,
        exists st', loadStudents (save st ls) st0 = Loaded st'
                    /\ valid_list (students st')).
Proof.
  intros Hst. split; [|split; [|split]].
  - apply valid_list_handleSubmit, Hst.
  - intros confirmed index. unfold handleDelete. destruct confirmed; eexists; split;
      try reflexivity; simpl; [apply valid_list_filter_other, Hst | exact Hst].
  - intros ls [H | [H | (a & H & Ha)]].
    + exists st. split; [apply loadStudents_absent; auto | exact Hst].
    + exists st. split; [apply loadStudents_absent; auto | exact Hst].
    + eexists. split; [apply loadStudents_stringify, H|].
      simpl. apply valid_list_reloaded, Ha.
  - intros ls st0. eexists. split.
    + apply loadStudents_stringify, getItem_students_save.
    + simpl. apply valid_list_reloaded, Hst.
Qed.

(** Alice stored, Bob submitted: the list that results is valid. *)
Lemma valid_list_preserved_bob :
  valid_list (students (fst (handleSubmit (editing [alice] bob None)))).
Proof.
  apply (valid_list_preserved (editing [alice] bob None)).
  constructor; [|constructor].
  repeat split; simpl; (discriminate || lia).
Defined.

(** ** The transition system *)

Lemma currentPage_handleSubmit (st : State) :
  currentPage (fst (handleSubmit st)) = currentPage st.
Proof.
  unfold handleSubmit. destruct (isValid (formData st)); simpl; [|reflexivity].
  destruct (editIndex st); reflexivity.
Qed.

(** What the stale edit index of [handleSubmit_past_end] leads to: the
    empty slot is saved as [null], a reload brings it back as an element,
    and the search filter of the next render throws on it. *)
Example stale_edit_index_reload :
  load (save (mkState [Hole; Item bob] emptyForm None "" false 1) ∅)
  = Loaded (mkState [Null; Item bob] emptyForm None "" false 1)
  /\ filteredStudents (mkState [Null; Item bob] emptyForm None "" false 1)
     = Throw TypeError.
Proof.
  split; [|reflexivity]. unfold load.
  rewrite (loadStudents_stringify _ _ [Hole; Item bob]) by apply getItem_students_save.
  unfold initialState. rewrite getItem_darkMode_save. reflexivity.
Qed.

(** * Further properties of the component *)

(** ** Pages *)

Lemma windows_take (perPage : Z) (l : list Student) (k : nat) :
  (0 < perPage)%Z ->
  concat (map (fun p => fst (paginate perPage l (Z.of_nat p))) (seq 1 k))
  = take (k * Z.to_nat perPage) l.
Proof.
  intros Hper. induction k as [|k IH]; [reflexivity|].
  rewrite seq_S, map_app, concat_app, IH. cbn [map concat].
  rewrite app_nil_r, window_eq by lia.
  replace (Z.to_nat ((Z.of_nat (1 + k) - 1) * perPage)) with (k * Z.to_nat perPage)
    by (rewrite <- (Nat2Z.id k) at 1; rewrite <- Z2Nat.inj_mul by lia; f_equal; lia).
  rewrite take_take_drop. f_equal. lia.
Qed.

(** X1: for a page size above 0, the windows of the pages 1 to
    totalPages, one after the other, are the list itself: no element is
    shown twice and none is left out. Every page before the last one is
    full, and no window is longer than the page size. *)
Theorem pages_concat (perPage : Z) (l : list Student) :
  (0 < perPage)%Z ->
  let t := snd (paginate perPage l 1) in
  concat (map (fun p => fst (paginate perPage l (Z.of_nat p))) (seq 1 (Z.to_nat t))) = l
  /\ (forall p, (1 <= p < t)%Z ->
        Z.of_nat (length (fst (paginate perPage l p))) = perPage)
  /\ (forall p, (1 <= p)%Z ->
        (Z.of_nat (length (fst (paginate perPage l p))) <= perPage)%Z).
Proof.
  intros Hper t. subst t. cbn [snd paginate].
  pose proof (Math_ceil_div_spec (Z.of_nat (length l)) perPage Hper) as Ht.
  split; [|split].
  - rewrite windows_take by exact Hper. apply take_ge.
    apply Nat2Z.inj_le. rewrite Nat2Z.inj_mul, !Z2Nat.id by nia. lia.
  - intros p Hp. rewrite window_eq by lia.
    rewrite length_take, length_drop. nia.
  - intros p Hp. rewrite window_eq by lia. rewrite length_take. lia.
Qed.

(** The 12 records of the scenario come back from their three pages. *)
Lemma pages_concat_12 :
  concat (map (fun p => fst (paginate 5 (replicate 10 alice ++ [bob; carol]) (Z.of_nat p)))
            (seq 1 3))
  = replicate 10 alice ++ [bob; carol].
Proof.
  apply (pages_concat 5 (replicate 10 alice ++ [bob; carol])). lia.
Defined.

(** ** The store *)

(** X2: the save effect writes the two keys "students" and "darkMode"
    and no other: every other key of the store keeps its text. A save
    wipes out the save before it: saving one state and then another
    leaves the store that saving the second alone would leave. *)
Theorem save_frame (st st' : State) (ls : gmap string string) :
  (forall k, k <> "students" -> k <> "darkMode" ->
             getItem k (save st ls) = getItem k ls)
  /\ save st' (save st ls) = save st' ls.
Proof.
  unfold save, setItem, getItem. split.
  - intros k Hs Hd. rewrite !lookup_insert_ne by congruence. reflexivity.
  - apply map_eq. intros k.
    destruct (decide (k = "darkMode")) as [->|Hd];
      [rewrite !lookup_insert_eq; reflexivity|].
    rewrite !(lookup_insert_ne _ "darkMode") by congruence.
    destruct (decide (k = "students")) as [->|Hs];
      [rewrite !lookup_insert_eq; reflexivity|].
    rewrite !lookup_insert_ne by congruence. reflexivity.
Qed.

(** X3: a save followed by a start-up gives back an array of the same
    length in which every record is in its place, unchanged, and every
    slot that held no record (empty, [undefined] or [null]) holds
    [null]; the dark mode comes back as it was. *)
Theorem load_save_slots (a : list slot) (flag : bool) (ls : gmap string string)
    (f : Student) (e : option nat) (q : string) (p : Z) :
  load (save (mkState a f e q flag p) ls)
  = Loaded (mkState (map reloaded a) emptyForm None "" flag 1)
  /\ length (map reloaded a) = length a
  /\ (forall i s, a !! i = Some (Item s) <-> map reloaded a !! i = Some (Item s))
  /\ (forall i x, a !! i = Some x -> is_record x = false ->
                  map reloaded a !! i = Some Null).
Proof.
  split; [|split; [|split]].
  - unfold load.
    rewrite (loadStudents_stringify _ _ a) by apply getItem_students_save.
    unfold initialState. rewrite getItem_darkMode_save. destruct flag; reflexivity.
  - apply length_map.
  - intros i s. change (map reloaded a) with (reloaded <$> a).
    rewrite list_lookup_fmap. destruct (a !! i) as [[| | |s']|]; simpl;
      split; congruence.
  - intros i x Hx Hr. change (map reloaded a) with (reloaded <$> a).
    rewrite list_lookup_fmap, Hx. destruct x; try discriminate; reflexivity.
Qed.

(** ** Renders that throw *)

(** X4: the search filter throws a [TypeError] exactly when the array
    holds an [undefined] or a [null]; otherwise it returns the records of
    the array that the callback accepts, in order, the empty slots being
    passed over. *)
Theorem filteredStudents_cases (st : State) :
  filteredStudents st
  = if existsb nullish (students st) then Throw TypeError
    else Done (List.filter (matches (search st)) (records (students st))).
Proof.
  unfold filteredStudents. generalize (search st) as q. intros q.
  induction (students st) as [|x a IH]; [reflexivity|].
  destruct x as [| | |s]; cbn [filter_search existsb nullish records orb];
    try reflexivity; try exact IH.
  rewrite IH. destruct (existsb nullish a); [reflexivity|].
  cbn [bind List.filter]. reflexivity.
Qed.

Lemma filter_search_nullish (q : string) (a : list slot) (x : slot) :
  x ∈ a -> nullish x = true -> filter_search q a = Throw TypeError.
Proof.
  intros Hx Hn. induction Hx as [x a | x y a Hx IH].
  - destruct x; try discriminate; reflexivity.
  - specialize (IH Hn).
    destruct y as [| | |s]; cbn [filter_search]; try reflexivity; [exact IH|].
    rewrite IH. reflexivity.
Qed.

(** X5: once the list holds a slot that is not a record, a save and a
    start-up end in a render that throws: the slot comes back as [null]
    and the search filter reads its name. *)
Theorem reload_without_record (a : list slot) (i : nat) (x : slot) (flag : bool)
    (ls : gmap string string) (f : Student) (e : option nat) (q : string) (p : Z) :
  a !! i = Some x -> is_record x = false ->
  exists st',
    load (save (mkState a f e q flag p) ls) = Loaded st'
    /\ students st' !! i = Some Null
    /\ render st' = Throw TypeError.
Proof.
  intros Hx Hr. eexists. split; [|split].
  - unfold load.
    rewrite (loadStudents_stringify _ _ a) by apply getItem_students_save.
    reflexivity.
  - cbn [students set_students]. change (map reloaded a) with (reloaded <$> a).
    rewrite list_lookup_fmap, Hx. destruct x; try discriminate; reflexivity.
  - unfold render, filteredStudents. cbn [students set_students].
    rewrite (filter_search_nullish _ _ Null); [reflexivity | | reflexivity].
    apply list_elem_of_lookup. exists i.
    change (map reloaded a) with (reloaded <$> a).
    rewrite list_lookup_fmap, Hx. destruct x; try discriminate; reflexivity.
Qed.

(** The array with an empty slot before Bob, saved and loaded. *)
Lemma reload_without_record_hole :
  exists st',
    load (save (mkState [Hole; Item bob] emptyForm None "" false 1) ∅) = Loaded st'
    /\ students st' !! 0 = Some Null
    /\ render st' = Throw TypeError.
Proof.
  apply (reload_without_record [Hole; Item bob] 0 Hole); reflexivity.
Defined.

(** ** Editing a record *)

Lemma handleChanges_frame (es : list change) (st : State) :
  students (handleChanges es st) = students st
  /\ editIndex (handleChanges es st) = editIndex st
  /\ search (handleChanges es st) = search st
  /\ darkMode (handleChanges es st) = darkMode st
  /\ currentPage (handleChanges es st) = currentPage st.
Proof.
  unfold handleChanges. revert st. induction es as [|e es IH]; intros st; [tauto|].
  cbn [foldl]. destruct (IH (handleChange e st)) as (H1 & H2 & H3 & H4 & H5).
  rewrite H1, H2, H3, H4, H5. repeat split.
Qed.

Lemma array_set_dense_lt (l : list Student) (i : nat) (f : Student) :
  i < length l -> array_set (dense l) i f = dense (<[i := f]> l).
Proof.
  intros Hi. unfold array_set. rewrite length_dense.
  destruct (Nat.ltb_spec i (length l)); [|lia].
  unfold dense. symmetry. apply (list_fmap_insert Item).
Qed.

Lemma array_set_dense_end (l : list Student) (f : Student) :
  array_set (dense l) (length l) f = dense (l ++ [f]).
Proof.
  unfold array_set. rewrite length_dense, Nat.ltb_irrefl, Nat.sub_diag.
  unfold dense. rewrite map_app. reflexivity.
Qed.

Lemma handleSubmit_at (st : State) (l : list Student) (i : nat) :
  students st = dense l -> editIndex st = Some i ->
  isValid (formData st) = true ->
  handleSubmit st
  = (mkState (array_set (dense l) i (formData st)) emptyForm None
       (search st) (darkMode st) (currentPage st), []).
Proof.
  intros Hl He Hv. unfold handleSubmit. rewrite Hv, He, Hl, spread_dense. reflexivity.
Qed.

Lemma handleEdit_dense (l : list Student) (i : nat) (s f0 : Student)
    (e0 : option nat) (q : string) (d : bool) (p : Z) :
  l !! i = Some s ->
  handleEdit i (mkState (dense l) f0 e0 q d p) = Done (mkState (dense l) s (Some i) q d p).
Proof.
  intros Hs. unfold handleEdit. cbn [students]. rewrite lookup_dense, Hs. reflexivity.
Qed.

(** X6: Edit on a record, any typing into the form, then a submit: the
    Edit loads the record at the index into the form and remembers the
    index; the typing changes neither the list nor the index; a valid
    form then replaces exactly the record at that index and the form is
    reset, and a form that is not valid is rejected with the list, the
    index and the typed form kept. *)
Theorem edit_change_submit (l : list Student) (i : nat) (s : Student)
    (es : list change) (f0 : Student) (e0 : option nat) (q : string) (d : bool) (p : Z) :
  l !! i = Some s ->
  handleEdit i (mkState (dense l) f0 e0 q d p) = Done (mkState (dense l) s (Some i) q d p)
  /\ let st2 := handleChanges es (mkState (dense l) s (Some i) q d p) in
     students st2 = dense l
     /\ editIndex st2 = Some i
     /\ (isValid (formData st2) = true ->
         handleSubmit st2
         = (mkState (dense (<[i := formData st2]> l)) emptyForm None q d p, []))
     /\ (isValid (formData st2) = false ->
         handleSubmit st2 = (st2, [Alert validationMessage])).
Proof.
  intros Hs. split; [apply handleEdit_dense, Hs|]. intros st2.
  destruct (handleChanges_frame es (mkState (dense l) s (Some i) q d p))
    as (H1 & H2 & H3 & H4 & H5). fold st2 in H1, H2, H3, H4, H5.
  cbn [students editIndex search darkMode currentPage] in H1, H2, H3, H4, H5.
  split; [exact H1|]. split; [exact H2|]. split.
  - intros Hv. rewrite (handleSubmit_at st2 l i H1 H2 Hv), H3, H4, H5.
    rewrite array_set_dense_lt by (apply lookup_lt_Some in Hs; exact Hs).
    reflexivity.
  - intros Hv. unfold handleSubmit. rewrite Hv. reflexivity.
Qed.

(** Bob of the list Alice, Bob is edited: the marks are typed as 60. *)
Lemma edit_change_submit_bob :
  handleSubmit (handleChanges [ChangeMarks 60] (mkState (dense [alice; bob]) bob (Some 1) "" false 1))
  = (mkState (dense [alice; mkStudent "Bob" "EE" 21 60]) emptyForm None "" false 1, []).
Proof.
  destruct (edit_change_submit [alice; bob] 1 bob [ChangeMarks 60] emptyForm None
              "" false 1 eq_refl) as (_ & _ & _ & H & _).
  apply H. reflexivity.
Defined.

(** X7: Edit on a valid record followed at once by a submit leaves the
    list as it was (the record is written back onto itself), clears the
    edit index and resets the form. *)
Theorem edit_submit_unchanged (l : list Student) (i : nat) (s f0 : Student)
    (e0 : option nat) (q : string) (d : bool) (p : Z) :
  l !! i = Some s -> isValid s = true ->
  exists st1,
    handleEdit i (mkState (dense l) f0 e0 q d p) = Done st1
    /\ handleSubmit st1 = (mkState (dense l) emptyForm None q d p, []).
Proof.
  intros Hs Hv. eexists. split; [apply handleEdit_dense, Hs|].
  rewrite (handleSubmit_at (mkState (dense l) s (Some i) q d p) l i eq_refl eq_refl Hv).
  cbn [formData search darkMode currentPage].
  rewrite array_set_dense_lt by (apply lookup_lt_Some in Hs; exact Hs).
  rewrite list_insert_id by exact Hs. reflexivity.
Qed.

Lemma edit_submit_unchanged_bob :
  exists st1,
    handleEdit 1 (editing [alice; bob] emptyForm None) = Done st1
    /\ handleSubmit st1 = (editing [alice; bob] emptyForm None, []).
Proof.
  apply (edit_submit_unchanged [alice; bob] 1 bob); reflexivity.
Defined.

(** X8: a delete never touches the edit index. When a row at or above
    the record being edited is deleted, the submit that follows writes
    at the old index: if a record follows the edited one, it is that
    next record that is replaced; if the edited record was the last one,
    the form is appended as a new record. *)
Theorem delete_while_editing (l : list Student) (i j : nat) (s : Student)
    (es : list change) (f0 : Student) (e0 : option nat) (q : string) (d : bool) (p : Z) :
  l !! i = Some s -> j <= i ->
  exists st1 st2,
    handleEdit i (mkState (dense l) f0 e0 q d p) = Done st1
    /\ handleDelete true j st1 = Done st2
    /\ students st2 = dense (delete j l)
    /\ editIndex st2 = Some i
    /\ let st3 := handleChanges es st2 in
       isValid (formData st3) = true ->
       (S i < length l ->
          students (fst (handleSubmit st3)) = dense (<[i := formData st3]> (delete j l))
          /\ delete j l !! i = l !! S i)
       /\ (S i = length l ->
             students (fst (handleSubmit st3)) = dense (delete j l ++ [formData st3])).
Proof.
  intros Hs Hj. pose proof (lookup_lt_Some _ _ _ Hs) as Hi.
  exists (mkState (dense l) s (Some i) q d p),
    (mkState (dense (delete j l)) s (Some i) q d p).
  split; [apply handleEdit_dense, Hs|]. split.
  { unfold handleDelete. cbn [students].
    rewrite filter_other_dense, Nat.sub_0_r by lia. reflexivity. }
  split; [reflexivity|]. split; [reflexivity|]. intros st3 Hv.
  destruct (handleChanges_frame es (mkState (dense (delete j l)) s (Some i) q d p))
    as (H1 & H2 & _). fold st3 in H1, H2. cbn [students editIndex] in H1, H2.
  assert (Hlen : length (delete j l) = length l - 1)
    by (apply length_delete, lookup_lt_is_Some; lia).
  rewrite (handleSubmit_at st3 _ i H1 H2 Hv). cbn [fst students]. split.
  - intros Hlt. split; [apply array_set_dense_lt; lia|].
    apply list_lookup_delete_ge. exact Hj.
  - intros Heq. replace i with (length (delete j l)) at 1 by lia.
    apply array_set_dense_end.
Qed.

(** Alice, Bob, Carol: Edit on Bob, delete Alice, submit: Carol is
    replaced by Bob's form. *)
Lemma delete_while_editing_bob :
  exists st1 st2,
    handleEdit 1 (editing [alice; bob; carol] emptyForm None) = Done st1
    /\ handleDelete true 0 st1 = Done st2
    /\ students (fst (handleSubmit st2)) = dense [bob; bob].
Proof.
  destruct (delete_while_editing [alice; bob; carol] 1 0 bob [] emptyForm None
              "" false 1 eq_refl ltac:(lia))
    as (st1 & st2 & H1 & H2 & H3 & H4 & H5).
  exists st1, st2. split; [exact H1|]. split; [exact H2|].
  assert (Hst2 : st2 = mkState (dense [bob; carol]) bob (Some 1) "" false 1).
  { vm_compute in H1. injection H1 as <-. vm_compute in H2. injection H2 as <-.
    reflexivity. }
  subst st2. destruct (H5 eq_refl) as [Hnext _].
  exact (proj1 (Hnext ltac:(simpl; lia))).
Defined.

(** ** Add and delete *)

(** X9: adding a valid record and then deleting the last row gives back
    the list as it was before the add. *)
Theorem append_delete_last (l : list Student) (f : Student) (q : string)
    (d : bool) (p : Z) :
  isValid f = true ->
  exists st1,
    handleSubmit (mkState (dense l) f None q d p) = (st1, [])
    /\ students st1 = dense (l ++ [f])
    /\ handleDelete true (length l) st1 = Done (mkState (dense l) emptyForm None q d p).
Proof.
  intros Hv. eexists. split; [|split].
  - unfold handleSubmit. cbn [formData editIndex]. rewrite Hv. reflexivity.
  - cbn [students set_students set_formData]. rewrite spread_dense.
    unfold dense. rewrite map_app. reflexivity.
  - unfold handleDelete, set_students, set_formData. cbn.
    rewrite spread_dense. change (dense l ++ [Item f]) with (dense l ++ dense [f]).
    unfold dense at 1 2. rewrite <- map_app. fold (dense (l ++ [f])).
    rewrite filter_other_dense, Nat.sub_0_r by lia.
    rewrite (delete_middle l [] f), app_nil_r. reflexivity.
Qed.

Lemma append_delete_last_bob :
  exists st1,
    handleSubmit (editing [alice] bob None) = (st1, [])
    /\ students st1 = dense [alice; bob]
    /\ handleDelete true 1 st1 = Done (editing [alice] emptyForm None).
Proof. apply (append_delete_last [alice] bob "" false 1). reflexivity. Defined.

(** ** Arrays with empty slots *)

Lemma filter_other_compact_gt (index : nat) (a : list slot) (k : nat) :
  index < k -> filter_other index k a = compact a.
Proof.
  revert k. induction a as [|x a IH]; intros k Hk; [reflexivity|].
  destruct x; cbn [filter_other compact List.filter is_hole negb];
    try (destruct (Nat.eqb_spec k index); [lia|]); rewrite IH by lia; reflexivity.
Qed.

Lemma filter_other_compact (index : nat) (a : list slot) (k : nat) :
  k <= index -> filter_other index k a = compact (<[index - k := Hole]> a).
Proof.
  revert k. induction a as [|x a IH]; intros k Hk; [reflexivity|].
  destruct (Nat.eqb_spec k index) as [->|Hne].
  - rewrite Nat.sub_diag. cbn [insert list_insert compact List.filter is_hole negb].
    destruct x; cbn [filter_other]; rewrite ?Nat.eqb_refl;
      apply filter_other_compact_gt; lia.
  - replace (index - k) with (S (index - S k)) by lia.
    cbn [insert list_insert]. fold (@insert nat slot (list slot) _).
    destruct x; cbn [filter_other compact List.filter is_hole negb];
      try (destruct (Nat.eqb_spec k index); [lia|]);
      rewrite IH by lia; reflexivity.
Qed.

(** X10: a confirmed delete removes the element at the index and, with
    it, every empty slot of the array: what is left is the present
    elements other than the one at the index, in order, and no empty slot
    remains. *)
Theorem delete_compacts (i : nat) (st : State) :
  handleDelete true i st = Done (set_students st (compact (<[i := Hole]> (students st))))
  /\ Forall (fun x => is_hole x = false) (compact (<[i := Hole]> (students st)))
  /\ (forall x, x ∈ compact (<[i := Hole]> (students st)) -> x ∈ students st).
Proof.
  split; [|split].
  - unfold handleDelete. rewrite filter_other_compact, Nat.sub_0_r by lia. reflexivity.
  - apply Forall_forall. intros x Hx. apply list_elem_of_In, filter_In in Hx as [_ Hx].
    apply negb_true_iff, Hx.
  - intros x Hx. apply list_elem_of_In, filter_In in Hx as [Hin Hnh].
    apply list_elem_of_In in Hin. apply list_elem_of_lookup in Hin as [j Hj].
    destruct (decide (i = j)) as [->|Hij].
    + apply lookup_lt_Some in Hj as Hlt. rewrite length_insert in Hlt.
      rewrite list_lookup_insert_eq in Hj by exact Hlt. injection Hj as <-. discriminate.
    + rewrite list_lookup_insert_ne in Hj by exact Hij.
      apply list_elem_of_lookup. eauto.
Qed.

(** X11: with an empty slot in the list, an accepted submit that does
    not write to that very slot copies it as [undefined], and the render
    that follows throws a [TypeError]. *)
Theorem submit_after_hole_throws (st : State) (h : nat) :
  students st !! h = Some Hole ->
  editIndex st <> Some h ->
  isValid (formData st) = true ->
  students (fst (handleSubmit st)) !! h = Some Undefined
  /\ render (fst (handleSubmit st)) = Throw TypeError.
Proof.
  intros Hh He Hv.
  assert (Hs : spread (students st) !! h = Some Undefined).
  { unfold spread. change (map ?g (students st)) with (g <$> students st).
    rewrite list_lookup_fmap, Hh. reflexivity. }
  assert (Hlt : h < length (spread (students st))) by (apply lookup_lt_Some in Hs; exact Hs).
  assert (Hu : students (fst (handleSubmit st)) !! h = Some Undefined).
  { unfold handleSubmit. rewrite Hv. cbn [negb].
    destruct (editIndex st) as [i|]; cbn [fst students set_students set_formData set_editIndex].
    - unfold array_set. destruct (Nat.ltb_spec i (length (spread (students st)))).
      + rewrite list_lookup_insert_ne by congruence. exact Hs.
      + rewrite lookup_app_l by exact Hlt. exact Hs.
    - rewrite lookup_app_l by exact Hlt. exact Hs. }
  split; [exact Hu|].
  unfold render, filteredStudents.
  rewrite (filter_search_nullish _ _ Undefined); [reflexivity | | reflexivity].
  apply list_elem_of_lookup. eauto.
Qed.

(** An empty slot before Bob, and Alice added. *)
Lemma submit_after_hole_throws_alice :
  render (fst (handleSubmit (mkState [Hole; Item bob] alice None "" false 1)))
  = Throw TypeError.
Proof.
  apply (submit_after_hole_throws (mkState [Hole; Item bob] alice None "" false 1) 0);
    [reflexivity | discriminate | reflexivity].
Defined.

(** ** Row buttons under a search *)

Lemma window_row_bound (perPage page : Z) (l : list Student) (row : nat) :
  (0 < perPage)%Z -> (1 <= page)%Z ->
  row < length (fst (paginate perPage l page)) ->
  Z.to_nat ((page - 1) * perPage) + row < length l.
Proof.
  intros Hd Hp Hrow. apply lookup_lt_is_Some in Hrow as [s Hs].
  rewrite window_lookup in Hs by assumption.
  destruct (Z.of_nat row <? perPage)%Z; [|discriminate].
  apply lookup_lt_Some in Hs. exact Hs.
Qed.

(** X12: on a list of records, from page 1 on and whatever the search
    query, the index that the buttons of a displayed row pass lies inside
    the stored list: Edit loads the record stored at that index and
    remembers the index, and a confirmed Delete removes exactly the
    record at that index. *)
Theorem click_row_in_range (l : list Student) (f : Student) (e : option nat)
    (q : string) (d : bool) (p : Z) (w : list Student) (row : nat) :
  (1 <= p)%Z ->
  currentStudents (mkState (dense l) f e q d p) = Done w ->
  row < length w ->
  let st := mkState (dense l) f e q d p in
  exists s,
    l !! rowIndex st row = Some s
    /\ clickEdit row st = Done (mkState (dense l) s (Some (rowIndex st row)) q d p)
    /\ clickDelete true row st
       = Done (mkState (dense (delete (rowIndex st row) l)) f e q d p)
    /\ S (length (delete (rowIndex st row) l)) = length l.
Proof.
  intros Hp Hw Hrow st.
  unfold currentStudents, filteredStudents in Hw. cbn [search students] in Hw.
  rewrite filter_search_dense in Hw. cbn [bind currentPage] in Hw. injection Hw as <-.
  apply window_row_bound in Hrow; [|reflexivity|exact Hp].
  pose proof (sublist_length _ _ (filter_sublist (matches q) l)) as Hsub.
  assert (Hidx : rowIndex st row = Z.to_nat ((p - 1) * studentsPerPage) + row).
  { unfold rowIndex, indexOfFirst, indexOfLast, st, studentsPerPage. cbn [currentPage]. lia. }
  assert (Hlt : rowIndex st row < length l) by lia.
  destruct (lookup_lt_is_Some_2 l _ Hlt) as [s Hs].
  exists s. split; [exact Hs|]. split; [|split].
  - unfold clickEdit. apply handleEdit_dense, Hs.
  - unfold clickDelete, handleDelete, st. cbn [students set_students].
    rewrite filter_other_dense, Nat.sub_0_r by lia. reflexivity.
  - rewrite length_delete by eauto. lia.
Qed.

(** Alice, Bob searched for bob: the one row displayed. *)
Lemma click_row_in_range_bob :
  exists s,
    [alice; bob] !! rowIndex (mkState (dense [alice; bob]) emptyForm None "bob" false 1) 0
    = Some s.
Proof.
  destruct (click_row_in_range [alice; bob] emptyForm None "bob" false 1 [bob] 0
              ltac:(lia) eq_refl ltac:(simpl; lia)) as (s & Hs & _).
  exists s. exact Hs.
Defined.

(** ** The page after a delete or a search *)

Lemma Math_ceil_div_mul (k d : Z) : (0 < d)%Z -> Math_ceil_div (k * d) d = k.
Proof.
  intros Hd. unfold Math_ceil_div.
  replace (- (k * d))%Z with ((- k) * d)%Z by lia.
  rewrite Z.div_mul by lia. lia.
Qed.

Lemma Math_ceil_div_mul_succ (k d : Z) :
  (1 < d)%Z -> Math_ceil_div (k * d + 1) d = (k + 1)%Z.
Proof.
  intros Hd. pose proof (Math_ceil_div_spec (k * d + 1) d ltac:(lia)) as H. nia.
Qed.

Lemma render_dense (l : list Student) (f : Student) (e : option nat) (d : bool) (p : Z) :
  render (mkState (dense l) f e "" d p)
  = Done (mkView (fst (paginate studentsPerPage l p))
            (match e with Some _ => "Update" | None => "Add" end)
            (let t := snd (paginate studentsPerPage l p) in
             if (1 <? t)%Z then Some (mkPagination (p =? 1)%Z p t (p =? t)%Z) else None)
            d).
Proof.
  unfold render, filteredStudents. cbn [search students].
  rewrite filter_search_dense, filter_all by apply matches_empty. reflexivity.
Qed.

(** X13: the page is not adjusted after a delete. With 5k+1 records
    (k >= 1), no search and the last page k+1 displayed, that page shows
    one row; after its Delete the list holds the first 5k records, the
    page number is still k+1, and the render shows no row. The bar then
    reads page k+1 of k with Previous and Next both enabled, and for
    k = 1 it is not displayed at all. *)
Theorem delete_last_row_empty_page (l : list Student) (k : nat) (f : Student)
    (e : option nat) (d : bool) :
  length l = 5 * k + 1 -> 1 <= k ->
  let st := mkState (dense l) f e "" d (Z.of_nat k + 1) in
  let label := match e with Some _ => "Update" | None => "Add" end in
  render st
  = Done (mkView (drop (5 * k) l) label
            (Some (mkPagination false (Z.of_nat k + 1) (Z.of_nat k + 1) true)) d)
  /\ length (drop (5 * k) l) = 1
  /\ exists st',
       clickDelete true 0 st = Done st'
       /\ students st' = dense (take (5 * k) l)
       /\ currentPage st' = (Z.of_nat k + 1)%Z
       /\ render st'
          = Done (mkView [] label
                    (if (1 <? Z.of_nat k)%Z
                     then Some (mkPagination false (Z.of_nat k + 1) (Z.of_nat k) false)
                     else None) d).
Proof.
  intros Hlen Hk st label.
  assert (Hoff : Z.to_nat ((Z.of_nat k + 1 - 1) * studentsPerPage) = 5 * k)
    by (unfold studentsPerPage; lia).
  split; [|split].
  - unfold st. rewrite render_dense. unfold paginate at 2. cbn [snd].
    rewrite window_eq, Hoff by (unfold studentsPerPage; lia).
    replace (Z.of_nat (length l)) with (Z.of_nat k * studentsPerPage + 1)%Z
      by (unfold studentsPerPage; lia).
    rewrite Math_ceil_div_mul_succ by reflexivity. cbv zeta.
    rewrite take_ge by (rewrite length_drop; unfold studentsPerPage; lia).
    replace (1 <? Z.of_nat k + 1)%Z with true by lia.
    replace (Z.of_nat k + 1 =? 1)%Z with false by lia.
    rewrite Z.eqb_refl. reflexivity.
  - rewrite length_drop. lia.
  - exists (mkState (dense (take (5 * k) l)) f e "" d (Z.of_nat k + 1)).
    assert (Hrow : rowIndex st 0 = 5 * k).
    { unfold rowIndex, indexOfFirst, indexOfLast, st, studentsPerPage.
      cbn [currentPage]. lia. }
    split; [|split; [reflexivity|split; [reflexivity|]]].
    + unfold clickDelete, handleDelete. rewrite Hrow. unfold st.
      cbn [students set_students].
      rewrite filter_other_dense, Nat.sub_0_r by lia.
      rewrite delete_take_drop, (drop_ge l (S (5 * k))), app_nil_r by lia.
      reflexivity.
    + rewrite render_dense. unfold paginate at 2. cbn [snd].
      rewrite window_eq, Hoff by (unfold studentsPerPage; lia).
      rewrite length_take, Nat.min_l by lia.
      replace (Z.of_nat (5 * k)) with (Z.of_nat k * studentsPerPage)%Z
        by (unfold studentsPerPage; lia).
      rewrite Math_ceil_div_mul by reflexivity. cbv zeta.
      rewrite (drop_ge (take (5 * k) l)) by (rewrite length_take; lia).
      rewrite take_nil.
      replace (Z.of_nat k + 1 =? 1)%Z with false by lia.
      replace (Z.of_nat k + 1 =? Z.of_nat k)%Z with false by lia.
      reflexivity.
Qed.

(** Six records, page 2: after the delete of the sixth the table is
    empty and no bar is displayed. *)
Lemma delete_last_row_empty_page_6 :
  exists st',
    clickDelete true 0 (mkState (dense (replicate 5 alice ++ [bob])) emptyForm None "" false 2)
    = Done st'
    /\ students st' = dense (replicate 5 alice)
    /\ render st' = Done (mkView [] "Add" None false).
Proof.
  destruct (delete_last_row_empty_page (replicate 5 alice ++ [bob]) 1 emptyForm None false
              eq_refl ltac:(lia)) as (_ & _ & st' & H1 & H2 & _ & H3).
  exists st'. split; [exact H1|]. split; [exact H2|exact H3].
Defined.

(** X14: typing into the search box does not change the page. On a list
    of records, when the records that match the new query fill no more
    than the pages before the current one, the render shows no row,
    although records may match. *)
Theorem search_keeps_page (l : list Student) (f : Student) (e : option nat)
    (q0 q : string) (d : bool) (p : Z) :
  (1 <= p)%Z ->
  (Z.of_nat (length (List.filter (matches q) l)) <= (p - 1) * studentsPerPage)%Z ->
  let st' := handleSearch q (mkState (dense l) f e q0 d p) in
  currentPage st' = p
  /\ filteredStudents st' = Done (List.filter (matches q) l)
  /\ exists v, render st' = Done v /\ rows v = [].
Proof.
  intros Hp Hlen st'. split; [reflexivity|].
  assert (Hf : filteredStudents st' = Done (List.filter (matches q) l))
    by apply filter_search_dense.
  split; [exact Hf|]. unfold render. rewrite Hf. cbn [bind].
  eexists. split; [reflexivity|]. cbn [rows currentPage st' handleSearch set_search].
  rewrite window_eq by (reflexivity || exact Hp).
  rewrite drop_ge by lia. apply take_nil.
Qed.

(** Six records of which the sixth is Bob, page 2, search for bob. *)
Lemma search_keeps_page_bob :
  filteredStudents
    (handleSearch "bob" (mkState (dense (replicate 5 alice ++ [bob])) emptyForm None "" false 2))
  = Done [bob]
  /\ exists v,
       render (handleSearch "bob"
                 (mkState (dense (replicate 5 alice ++ [bob])) emptyForm None "" false 2))
       = Done v
       /\ rows v = [].
Proof.
  apply (search_keeps_page (replicate 5 alice ++ [bob]) emptyForm None "" "bob" false 2
           ltac:(lia) ltac:(vm_compute; discriminate)).
Defined.

(** ** The page buttons *)

Lemma render_bar (st : State) (v : View) (b : Pagination) :
  render st = Done v -> pagination v = Some b ->
  exists f,
    filteredStudents st = Done f
    /\ (1 < snd (paginate studentsPerPage f 1))%Z
    /\ b = mkPagination (currentPage st =? 1)%Z (currentPage st)
             (snd (paginate studentsPerPage f 1))
             (currentPage st =? snd (paginate studentsPerPage f 1))%Z.
Proof.
  unfold render. intros Hr Hb. destruct (filteredStudents st) as [f|];
    cbn [bind] in Hr; [|discriminate].
  injection Hr as <-. cbn [pagination] in Hb.
  exists f. split; [reflexivity|]. revert Hb.
  change (Math_ceil_div (Z.of_nat (length f)) studentsPerPage)
    with (snd (paginate studentsPerPage f 1)).
  destruct (Z.ltb_spec 1 (snd (paginate studentsPerPage f 1))); intros Hb; [|discriminate].
  split; [assumption|]. congruence.
Qed.

Lemma render_page (st : State) (f : list Student) (p : Z) :
  filteredStudents st = Done f ->
  (1 < snd (paginate studentsPerPage f 1))%Z ->
  exists v,
    render (set_currentPage st p) = Done v
    /\ pagination v
       = Some (mkPagination (p =? 1)%Z p (snd (paginate studentsPerPage f 1))
                 (p =? snd (paginate studentsPerPage f 1))%Z).
Proof.
  intros Hf Ht. unfold render.
  change (filteredStudents (set_currentPage st p)) with (filteredStudents st).
  rewrite Hf. cbn [bind]. eexists. split; [reflexivity|]. cbn [pagination currentPage set_currentPage].
  change (snd (paginate studentsPerPage f p)) with (snd (paginate studentsPerPage f 1)).
  destruct (Z.ltb_spec 1 (snd (paginate studentsPerPage f 1))); [reflexivity|lia].
Qed.

(** X15: when the pagination bar is displayed and the page lies inside
    1..totalPages, a page button that is not disabled keeps it there: the
    render after Previous (resp. Next) displays the bar with the same
    number of pages and the page one lower (resp. higher), still inside
    the range, and Next after Previous (resp. Previous after Next) gives
    back the state. *)
Theorem page_buttons (st : State) (v : View) (b : Pagination) :
  render st = Done v ->
  pagination v = Some b ->
  (1 <= currentPage st <= pagesShown b)%Z ->
  pageShown b = currentPage st
  /\ (prevDisabled b = false ->
        exists v' b',
          render (prevPage st) = Done v'
          /\ pagination v' = Some b'
          /\ pagesShown b' = pagesShown b
          /\ pageShown b' = (currentPage st - 1)%Z
          /\ (1 <= pageShown b' <= pagesShown b')%Z
          /\ nextPage (prevPage st) = st)
  /\ (nextDisabled b = false ->
        exists v' b',
          render (nextPage st) = Done v'
          /\ pagination v' = Some b'
          /\ pagesShown b' = pagesShown b
          /\ pageShown b' = (currentPage st + 1)%Z
          /\ (1 <= pageShown b' <= pagesShown b')%Z
          /\ prevPage (nextPage st) = st).
Proof.
  intros Hr Hb Hp. destruct (render_bar st v b Hr Hb) as (f & Hf & Ht & ->).
  cbn [pagesShown pageShown prevDisabled nextDisabled] in *.
  split; [reflexivity|]. split; intros Hdis.
  - destruct (render_page st f (currentPage st - 1) Hf Ht) as (v' & Hv' & Hb').
    exists v', (mkPagination (currentPage st - 1 =? 1)%Z (currentPage st - 1)
                  (snd (paginate studentsPerPage f 1))
                  (currentPage st - 1 =? snd (paginate studentsPerPage f 1))%Z).
    split; [exact Hv'|]. split; [exact Hb'|]. split; [reflexivity|].
    split; [reflexivity|]. cbn [pageShown pagesShown]. split; [lia|].
    destruct st as [a g e q d p]. unfold prevPage, nextPage, set_currentPage.
    cbn [currentPage students formData editIndex search darkMode]. f_equal. lia.
  - destruct (render_page st f (currentPage st + 1) Hf Ht) as (v' & Hv' & Hb').
    exists v', (mkPagination (currentPage st + 1 =? 1)%Z (currentPage st + 1)
                  (snd (paginate studentsPerPage f 1))
                  (currentPage st + 1 =? snd (paginate studentsPerPage f 1))%Z).
    split; [exact Hv'|]. split; [exact Hb'|]. split; [reflexivity|].
    split; [reflexivity|]. cbn [pageShown pagesShown]. split; [lia|].
    destruct st as [a g e q d p]. unfold prevPage, nextPage, set_currentPage.
    cbn [currentPage students formData editIndex search darkMode]. f_equal. lia.
Qed.

(** Six records, page 1 of 2: Next leads to page 2 of 2. *)
Lemma page_buttons_6 :
  exists v' b',
    render (nextPage (editing (replicate 5 alice ++ [bob]) emptyForm None)) = Done v'
    /\ pagination v' = Some b'
    /\ pagesShown b' = 2%Z
    /\ pageShown b' = 2%Z.
Proof.
  destruct (page_buttons (editing (replicate 5 alice ++ [bob]) emptyForm None)
              _ (mkPagination true 1 2 false) eq_refl eq_refl ltac:(simpl; lia))
    as (_ & _ & H).
  destruct (H eq_refl) as (v' & b' & H1 & H2 & H3 & H4 & _).
  exists v', b'. split; [exact H1|]. split; [exact H2|]. split; [exact H3|exact H4].
Defined.

(** ** Adding a record *)

(** X16: the four fields typed one after the other and the form
    submitted: whatever the form held before, when no record is being
    edited and the values typed meet the constraints, exactly the record
    typed is appended to the list, the form is reset, and no message is
    shown. *)
Theorem type_and_add (st : State) (n dp : string) (a m : Z) :
  editIndex st = None ->
  meets_constraints (mkStudent n dp a m) ->
  handleSubmit
    (handleChanges [ChangeName n; ChangeDept dp; ChangeAge a; ChangeMarks m] st)
  = (mkState (spread (students st) ++ [Item (mkStudent n dp a m)]) emptyForm None
       (search st) (darkMode st) (currentPage st), []).
Proof.
  intros He Hm. apply isValid_meets_constraints in Hm.
  destruct st as [l f e q d p]. cbn [editIndex] in He. subst e.
  unfold handleChanges, handleChange, handleSubmit, set_formData.
  cbn [foldl formData name dept age marks editIndex students search darkMode currentPage].
  rewrite Hm. reflexivity.
Qed.

(** Bob typed into the form of the list Alice. *)
Lemma type_and_add_bob :
  handleSubmit
    (handleChanges [ChangeName "Bob"; ChangeDept "EE"; ChangeAge 21; ChangeMarks 50]
       (editing [alice] carol None))
  = (editing [alice; bob] emptyForm None, []).
Proof.
  apply (type_and_add (editing [alice] carol None) "Bob" "EE" 21 50 eq_refl).
  apply isValid_meets_constraints. reflexivity.
Defined.

(** ** What is stored after a run *)

Lemma stored_save (st : State) (ls : gmap string string) :
  stored (students st) (darkMode st) (save st ls).
Proof. split; [apply getItem_students_save | apply getItem_darkMode_save]. Qed.

Lemma load_stored (ls : gmap string string) (a : list slot) (d : bool) :
  stored a d ls ->
  load ls = Loaded (mkState (map reloaded a) emptyForm None "" d 1).
Proof.
  intros [Hs Hd]. unfold load. rewrite (loadStudents_stringify _ _ a Hs).
  unfold initialState. rewrite Hd. destruct d; reflexivity.
Qed.

(** A start-up from a store that a save has written. *)
Lemma mount_stored (ls : gmap string string) (a : list slot) (d : bool) :
  stored a d ls ->
  mount ls
  = Some (commit true (mkState (map reloaded a) emptyForm None "" d 1)
            (save (initialState ls) ls)).
Proof.
  intros H. pose proof (load_stored _ _ _ H) as Hload. destruct H as [Hs Hd].
  unfold mount. rewrite Hs. change (falsy (JSON.stringify a)) with false. cbv iota.
  unfold load in Hload. rewrite Hload. reflexivity.
Qed.

(** The render that follows an update: what it needs to be [stable]. *)
Lemma stable_commit (saves : bool) (st : State) (ls : gmap string string)
    (a : list slot) (d : bool) :
  valid_list a -> stored a d ls ->
  (saves = false -> students st = a /\ darkMode st = d) ->
  (1 <= currentPage st)%Z -> valid_list (students st) ->
  stable (commit saves st ls).
Proof.
  intros Ha Hs Hsame Hp Hv. unfold commit, stable.
  destruct (render st) as [v|err] eqn:Hr; cbn [fst snd].
  - split; [eauto|]. split; [exact Hp|]. split; [exact Hv|].
    destruct saves; [apply stored_save|].
    destruct (Hsame eq_refl) as [-> ->]. exact Hs.
  - eauto.
Qed.

(** Every event and every reload keeps what [stable] says. *)
Lemma step_stable (c c' : screen * gmap string string) :
  step c c' -> stable c -> stable c'.
Proof.
  intros Hstep Hst. destruct Hstep as
    [e st ls v Hr | q st ls v Hr | st ls v Hr | st ls v Hr Hf | st ls v Hr Hf
    | row st st' ls v Hr Hrow He | row st ls v err Hr Hrow He
    | row st st' ls v Hr Hrow Hd | row st st' ls v Hr Hrow Hd
    | st ls v b Hr Hb Hdis | st ls v b Hr Hb Hdis | scr ls c Hm].
  1-11: destruct Hst as (_ & Hp & Hv & Hs); cbn [fst snd] in Hp, Hv, Hs.
  - apply (stable_commit false _ _ _ _ Hv Hs); auto.
  - apply (stable_commit false _ _ _ _ Hv Hs); auto.
  - apply (stable_commit true _ _ _ _ Hv Hs); [discriminate | exact Hp | exact Hv].
  - apply (stable_commit true _ _ _ _ Hv Hs); [discriminate | |].
    + rewrite currentPage_handleSubmit. exact Hp.
    + apply valid_list_handleSubmit, Hv.
  - unfold handleSubmit. rewrite Hf. cbn [negb fst]. unfold stable. cbn [fst snd]. eauto.
  - unfold clickEdit, handleEdit in He.
    destruct (students st !! rowIndex st row) as [[| | |s]|]; try discriminate.
    injection He as <-. apply (stable_commit false _ _ _ _ Hv Hs); auto.
  - unfold stable. cbn [fst snd]. eauto.
  - unfold clickDelete, handleDelete in Hd. injection Hd as <-.
    apply (stable_commit true _ _ _ _ Hv Hs); [discriminate | exact Hp |].
    apply valid_list_filter_other, Hv.
  - unfold clickDelete, handleDelete in Hd. injection Hd as <-.
    unfold stable. cbn [fst snd]. eauto.
  - destruct (render_bar st v b Hr Hb) as (f & _ & _ & ->). cbn [prevDisabled] in Hdis.
    apply (stable_commit false _ _ _ _ Hv Hs); auto.
    unfold prevPage. cbn [currentPage set_currentPage]. lia.
  - apply (stable_commit false _ _ _ _ Hv Hs); auto.
    unfold nextPage. cbn [currentPage set_currentPage]. lia.
  - assert (Hst' : exists a d, valid_list a /\ stored a d ls).
    { unfold stable in Hst. cbn [fst snd] in Hst. destruct scr as [st|].
      - destruct Hst as (_ & _ & Hv & Hs). eauto.
      - exact Hst. }
    destruct Hst' as (a & d & Hv & Hs).
    rewrite (mount_stored _ _ _ Hs) in Hm. injection Hm as <-.
    apply (stable_commit true _ _ [] (darkMode (initialState ls)));
      [constructor | apply (stored_save (initialState ls)) | discriminate
      | cbn [currentPage]; lia | apply valid_list_reloaded, Hv].
Qed.

Lemma rtc_step_stable (c c' : screen * gmap string string) :
  rtc step c c' -> stable c -> stable c'.
Proof. induction 1; eauto using step_stable. Qed.

(** A start-up that loads a list of valid records is stable. *)
Lemma stable_mount (ls : gmap string string) (st : State)
    (c : screen * gmap string string) :
  load ls = Loaded st -> valid_list (students st) -> mount ls = Some c -> stable c.
Proof.
  unfold load, mount. intros Hload Hv Hm.
  assert (Hfirst : stable (Mounted (initialState ls), save (initialState ls) ls)).
  { unfold stable. cbn [fst snd]. split; [eexists; reflexivity|].
    split; [cbn [currentPage initialState]; lia|]. split; [constructor|].
    apply (stored_save (initialState ls)). }
  destruct (getItem "students" ls) as [text|] eqn:Ht; [|injection Hm as <-; exact Hfirst].
  destruct (falsy text) eqn:Hf; [injection Hm as <-; exact Hfirst|].
  rewrite Hload in Hm. injection Hm as <-.
  apply (stable_commit true _ _ [] (darkMode (initialState ls)));
    [constructor | apply (stored_save (initialState ls)) | discriminate | | exact Hv].
  unfold loadStudents in Hload. rewrite Ht, Hf in Hload.
  destruct (JSON.parse text) as [j|]; [|discriminate].
  destruct (students_of_json j); [|discriminate].
  injection Hload as <-. cbn [currentPage set_students initialState]. lia.
Qed.

(** X17: from a start-up that loads a list whose records meet the
    constraints, after any sequence of the events of the component on
    the screen (typing, searching, theme toggle, submits, Edit and Delete
    of displayed rows, enabled page buttons) and of reloads: while the
    component is on the screen its render succeeds, the store holds the
    list and the theme of the state, so that the load of a reload reads
    that list (empty slots as [null]) and that theme, every record of
    the list meets the constraints and the page is at least 1; once a
    render has thrown and the component is gone, the store still holds a
    list of records that meet the constraints, which the load of a reload
    reads. *)
Theorem reload_after_run (ls : gmap string string) (st0 : State)
    (c0 c : screen * gmap string string) :
  load ls = Loaded st0 ->
  valid_list (students st0) ->
  mount ls = Some c0 ->
  rtc step c0 c ->
  match fst c with
  | Mounted st =>
      (exists v, render st = Done v)
      /\ load (snd c)
         = Loaded (mkState (map reloaded (students st)) emptyForm None ""
                     (darkMode st) 1)
      /\ valid_list (students st)
      /\ (1 <= currentPage st)%Z
  | Unmounted =>
      exists a d,
        valid_list a
        /\ load (snd c) = Loaded (mkState (map reloaded a) emptyForm None "" d 1)
  end.
Proof.
  intros Hload Hv Hm Hrun.
  pose proof (rtc_step_stable _ _ Hrun (stable_mount _ _ _ Hload Hv Hm)) as Hst.
  unfold stable in Hst. destruct (fst c) as [st|].
  - destruct Hst as (Hr & Hp & Hvc & Hs).
    split; [exact Hr|]. split; [apply load_stored, Hs|]. split; assumption.
  - destruct Hst as (a & d & Ha & Hs). exists a, d.
    split; [exact Ha | apply load_stored, Hs].
Qed.

(** From the first start-up on an empty store, Alice is typed and
    added: the component is on the screen with the list Alice, and a
    reload reads the list Alice. *)
Lemma reload_after_run_alice :
  exists ls,
    rtc step (Mounted (initialState ∅), save (initialState ∅) ∅)
      (Mounted (mkState [Item alice] emptyForm None "" false 1), ls)
    /\ load ls = Loaded (mkState [Item alice] emptyForm None "" false 1).
Proof.
  set (st1 := mkState [Item alice] emptyForm None "" false 1).
  exists (save st1 (save (initialState ∅) ∅)).
  assert (Hrun : rtc step (Mounted (initialState ∅), save (initialState ∅) ∅)
                   (Mounted st1, save st1 (save (initialState ∅) ∅))).
  { set (ls0 := save (initialState ∅) ∅).
    set (s0 := initialState ∅).
    set (s1 := handleChange (ChangeName "Alice") s0).
    set (s2 := handleChange (ChangeDept "CS") s1).
    set (s3 := handleChange (ChangeAge 20) s2).
    set (s4 := handleChange (ChangeMarks 88) s3).
    eapply rtc_l; [exact (step_change (ChangeName "Alice") s0 ls0 _ eq_refl)|].
    eapply rtc_l; [exact (step_change (ChangeDept "CS") s1 ls0 _ eq_refl)|].
    eapply rtc_l; [exact (step_change (ChangeAge 20) s2 ls0 _ eq_refl)|].
    eapply rtc_l; [exact (step_change (ChangeMarks 88) s3 ls0 _ eq_refl)|].
    eapply rtc_l; [|apply rtc_refl].
    exact (step_submit s4 ls0 _ eq_refl eq_refl). }
  split; [exact Hrun|].
  exact (proj1 (proj2 (reload_after_run ∅ (initialState ∅) _
                         (Mounted st1, save st1 (save (initialState ∅) ∅))
                         eq_refl (Forall_nil_2 _) eq_refl Hrun))).
Defined.

(** X18: a reload loses the list when the saved list has a position
    without a record (the empty slot that a submit with a stale edit
    index leaves is saved as [null]). The save effect of the first
    render writes the empty list, the render of the list read throws on
    the [null], and the component is removed before any other save: the
    store is left with the text of the empty list, and the next reload
    shows the component with no record. *)
Theorem reload_loses_list (a : list slot) (d : bool) (ls : gmap string string)
    (i : nat) (x : slot) :
  stored a d ls ->
  a !! i = Some x -> is_record x = false ->
  mount ls = Some (Unmounted, save (initialState ls) ls)
  /\ getItem "students" (save (initialState ls) ls) = Some "[]"
  /\ exists ls',
       mount (save (initialState ls) ls)
       = Some (Mounted (mkState [] emptyForm None "" d 1), ls')
       /\ stored [] d ls'.
Proof.
  intros Hs Hx Hr.
  assert (Hd : darkMode (initialState ls) = d).
  { unfold initialState. cbn [darkMode]. rewrite (proj2 Hs). destruct d; reflexivity. }
  split; [|split].
  - rewrite (mount_stored _ _ _ Hs). unfold commit.
    replace (render (mkState (map reloaded a) emptyForm None "" d 1))
      with (@Throw View TypeError); [reflexivity|].
    symmetry. unfold render, filteredStudents. cbn [students search].
    rewrite (filter_search_nullish _ _ Null); [reflexivity | | reflexivity].
    apply list_elem_of_lookup. exists i.
    change (map reloaded a) with (reloaded <$> a).
    rewrite list_lookup_fmap, Hx. destruct x; try discriminate; reflexivity.
  - rewrite getItem_students_save. reflexivity.
  - pose proof (stored_save (initialState ls) ls) as Hs'.
    rewrite Hd in Hs'. change (students (initialState ls)) with (@nil slot) in Hs'.
    rewrite (mount_stored _ _ _ Hs'). eexists. split; [reflexivity|].
    apply (stored_save (mkState [] emptyForm None "" d 1)).
Qed.

(** The list with an empty slot before Bob, as saved by the component. *)
Lemma reload_loses_list_bob :
  mount (save (mkState [Hole; Item bob] emptyForm None "" false 1) ∅)
  = Some (Unmounted,
          save (initialState (save (mkState [Hole; Item bob] emptyForm None "" false 1) ∅))
            (save (mkState [Hole; Item bob] emptyForm None "" false 1) ∅)).
Proof.
  exact (proj1 (reload_loses_list [Hole; Item bob] false
                  (save (mkState [Hole; Item bob] emptyForm None "" false 1) ∅)
                  0 Hole
                  (stored_save (mkState [Hole; Item bob] emptyForm None "" false 1) ∅)
                  eq_refl eq_refl)).
Defined.
